(** * CalAI: response parsing and per-date aggregation

    A shallow embedding of [src/app.py]: the fence stripping done on the
    model's reply, the stamping of the parsed reply, and the three handlers
    that read and write the in-memory [calorie_data] dictionary.

    Conventions.
    - A Python [str] is the list of its code points; [str "..."] writes an
      ASCII literal.
    - A Python [int] is a [Z]; a Python [float] is an IEEE 754 binary64 value,
      taken from [SpecFloat] with [prec = 53] and [emax = 1024], in the
      canonical form in which [json.loads] and [+] produce it.
    - A value decoded from JSON is a [value]; a [dict] keeps its items in
      insertion order, as CPython does.
    - [calorie_data] compares its keys with [==], which identifies [1],
      [1.0] and [True]; it is therefore a list of entries searched with
      [key_eq], not a map on syntactic equality.
    - A handler is a function of the store that returns its response and
      the store it leaves; a request body is taken after [request.json]
      decoded it.
    - Calls that leave the program ([json.loads], the generative model, the
      file system, the clock, [url_for], [secure_filename]) are fields of an
      environment record [env]. *)

From Stdlib Require Import ZArith Floats.SpecFloat Strings.String Strings.Ascii.
From stdpp Require Import base tactics option list numbers sorting.

Local Open Scope Z_scope.

(** ** Strings *)

Definition pystr := list N.

(** The literal [s], as a Python string. *)
Definition str (s : string) : pystr := N_of_ascii <$> list_ascii_of_string s.

(** [str.isspace] on one code point: the characters [str.strip()] removes. *)
Definition is_space (c : N) : bool :=
  ((9 <=? c) && (c <=? 13) || (28 <=? c) && (c <=? 32) || (c =? 133) || (c =? 160)
   || (c =? 5760) || (8192 <=? c) && (c <=? 8202) || (c =? 8232) || (c =? 8233)
   || (c =? 8239) || (c =? 8287) || (c =? 12288))%N.

Fixpoint lstrip (s : pystr) : pystr :=
  match s with
  | c :: s' => if is_space c then lstrip s' else s
  | [] => []
  end.

Definition rstrip (s : pystr) : pystr := reverse (lstrip (reverse s)).

(** [s.strip()] *)
Definition strip (s : pystr) : pystr := rstrip (lstrip s).

(** [s.startswith(p)] *)
Fixpoint startswith (s p : pystr) {struct p} : bool :=
  match p, s with
  | [], _ => true
  | a :: p', b :: s' => (a =? b)%N && startswith s' p'
  | _ :: _, [] => false
  end.

(** [s.endswith(p)] *)
Definition endswith (s p : pystr) : bool := startswith (reverse s) (reverse p).

(** [s[n:]] for [n >= 0] *)
Definition slice_from (n : nat) (s : pystr) : pystr := drop n s.

(** [s[:-n]] for [n > 0] *)
Definition slice_to_minus (n : nat) (s : pystr) : pystr := take (length s - n) s.

(** [a < b] on strings: lexicographic on code points. *)
Fixpoint str_ltb (a b : pystr) : bool :=
  match a, b with
  | _, [] => false
  | [], _ :: _ => true
  | x :: a', y :: b' => (x <? y)%N || (x =? y)%N && str_ltb a' b'
  end.

(** ** Numbers *)

Definition float := spec_float.

Inductive pynum :=
| PInt (z : Z)
| PFloat (f : float).

Definition float_add : float -> float -> float := SFadd 53 1024.

(** ** Values *)

#[local] Unset Elimination Schemes.
Inductive value :=
| VNone
| VBool (b : bool)
| VNum (n : pynum)
| VStr (s : pystr)
| VList (items : list value)
| VDict (fields : list (pystr * value)).
#[local] Set Elimination Schemes.

Definition dict := list (pystr * value).

Definition type_name (v : value) : pystr :=
  match v with
  | VNone => str "NoneType"
  | VBool _ => str "bool"
  | VNum (PInt _) => str "int"
  | VNum (PFloat _) => str "float"
  | VStr _ => str "str"
  | VList _ => str "list"
  | VDict _ => str "dict"
  end.

(** ** Exceptions *)

Inductive exn :=
| TypeError_unhashable (v : value)       (* hash(v) *)
| TypeError_operand (l r : value)        (* l += r *)
| TypeError_setitem (v : value)          (* v[key] = x *)
| TypeError_compare (l r : value)        (* l < r *)
| TypeError_path (v : value)             (* os.path.basename(v) *)
| AttributeError_get (v : value)         (* v.get *)
| OverflowError_float (z : Z)            (* float(z) *)
| LibraryError (msg : pystr).            (* raised inside a library call; str(e) = msg *)

(** [str(e)], in the wording of CPython 3.8 to 3.13. *)
Definition exn_str (e : exn) : pystr :=
  match e with
  | TypeError_unhashable v => str "unhashable type: '" ++ type_name v ++ str "'"
  | TypeError_operand l r =>
      str "unsupported operand type(s) for +=: '" ++ type_name l ++ str "' and '"
        ++ type_name r ++ str "'"
  | TypeError_setitem (VList _) => str "list indices must be integers or slices, not str"
  | TypeError_setitem v => str "'" ++ type_name v ++ str "' object does not support item assignment"
  | TypeError_compare l r =>
      str "'<' not supported between instances of '" ++ type_name l ++ str "' and '"
        ++ type_name r ++ str "'"
  | TypeError_path v =>
      str "expected str, bytes or os.PathLike object, not " ++ type_name v
  | AttributeError_get v => str "'" ++ type_name v ++ str "' object has no attribute 'get'"
  | OverflowError_float _ => str "int too large to convert to float"
  | LibraryError msg => msg
  end.

Inductive result (A : Type) :=
| Ok (a : A)
| Raise (e : exn).
Arguments Ok {A} a.
Arguments Raise {A} e.

Definition result_bind {A B} (f : A -> result B) (r : result A) : result B :=
  match r with
  | Ok a => f a
  | Raise e => Raise e
  end.

#[export] Instance result_ret : MRet result := @Ok.
#[export] Instance result_mbind : MBind result := @result_bind.
#[export] Instance result_fmap : FMap result :=
  fun A B f => result_bind (fun a => Ok (f a)).

(** ** Arithmetic and comparison *)

(** [float(z)]: round to nearest, ties to even; an [int] that rounds past the
    largest finite binary64 raises. *)
Definition float_of_int (z : Z) : result float :=
  match binary_normalize 53 1024 z 0 false with
  | S754_infinity _ => Raise (OverflowError_float z)
  | f => Ok f
  end.

(** [a + b] on numbers. *)
Definition py_add (a b : pynum) : result pynum :=
  match a, b with
  | PInt x, PInt y => Ok (PInt (x + y))
  | PInt x, PFloat g => f ← float_of_int x; Ok (PFloat (float_add f g))
  | PFloat f, PInt y => g ← float_of_int y; Ok (PFloat (float_add f g))
  | PFloat f, PFloat g => Ok (PFloat (float_add f g))
  end.

(** The number a value stands for in arithmetic: [bool] is a subclass of
    [int]. *)
Definition as_number (v : value) : option pynum :=
  match v with
  | VNum n => Some n
  | VBool b => Some (PInt (if b then 1 else 0))
  | _ => None
  end.

(** [t + v] where [t] is a running total (an [int] or a [float]). *)
Definition py_iadd (t : pynum) (v : value) : result pynum :=
  match as_number v with
  | Some n => py_add t n
  | None => Raise (TypeError_operand (VNum t) v)
  end.

(** The exact order between a float and an int, as CPython computes it
    ([None] when the float is a NaN). *)
Definition float_cmp_int (f : float) (z : Z) : option comparison :=
  match f with
  | S754_nan => None
  | S754_infinity s => Some (if s then Lt else Gt)
  | S754_zero _ => Some (0 ?= z)
  | S754_finite s m e =>
      let v := if s then Z.neg m else Z.pos m in
      Some (if 0 <=? e then v * 2 ^ e ?= z else v ?= z * 2 ^ (- e))
  end.

Definition num_compare (a b : pynum) : option comparison :=
  match a, b with
  | PInt x, PInt y => Some (x ?= y)
  | PInt x, PFloat g => CompOpp <$> float_cmp_int g x
  | PFloat f, PInt y => float_cmp_int f y
  | PFloat f, PFloat g => SFcompare f g
  end.

(** [hash(v)] succeeds. *)
Definition hashable (v : value) : bool :=
  match v with
  | VList _ | VDict _ => false
  | _ => true
  end.

(** [a == b] between two hashable values: numbers compare by value across
    [bool], [int] and [float], and a NaN equals nothing.  A [dict] finds a
    key by [==]; that it also finds the very object it holds, which is how
    it finds a NaN again, has no counterpart on values. *)
Definition key_eq (a b : value) : bool :=
  match a, b with
  | VNone, VNone => true
  | VStr s, VStr t => bool_decide (s = t)
  | _, _ =>
      match as_number a, as_number b with
      | Some x, Some y => bool_decide (num_compare x y = Some Eq)
      | _, _ => false
      end
  end.

(** [a < b] between two hashable values. *)
Definition py_lt (a b : value) : result bool :=
  match a, b with
  | VStr s, VStr t => Ok (str_ltb s t)
  | _, _ =>
      match as_number a, as_number b with
      | Some x, Some y => Ok (bool_decide (num_compare x y = Some Lt))
      | _, _ => Raise (TypeError_compare a b)
      end
  end.

(** ** Sorting

    [list.sort] is stable and only ever asks [x < y].  It is modelled by a
    stable insertion sort; on keys without NaN, [<] is a strict total order
    within strings and within numbers and raises across them, so any
    comparison sort returns the same list or raises just the same. *)

Fixpoint insort (x : value) (l : list value) : result (list value) :=
  match l with
  | [] => Ok [x]
  | y :: l' =>
      b ← py_lt x y;
      if b : bool then Ok (x :: y :: l') else l'' ← insort x l'; Ok (y :: l'')
  end.

Definition sort_asc (l : list value) : result (list value) :=
  foldl (fun acc x => acc ≫= insort x) (Ok []) l.

(** [sorted(l, reverse=True)]: reverse, sort ascending, reverse back. *)
Definition sorted_reverse (l : list value) : result (list value) :=
  reverse <$> sort_asc (reverse l).

(** ** Dictionaries decoded from JSON (string keys) *)

(** [d.get(k)], [None] when [k] is not a key. *)
Fixpoint dict_get (k : pystr) (d : dict) : option value :=
  match d with
  | [] => None
  | (k', v) :: d' => if decide (k' = k) then Some v else dict_get k d'
  end.

(** [d[k] = v]: an existing key keeps its place, a new one goes last. *)
Fixpoint dict_set (k : pystr) (v : value) (d : dict) : dict :=
  match d with
  | [] => [(k, v)]
  | (k', v') :: d' => if decide (k' = k) then (k', v) :: d' else (k', v') :: dict_set k v d'
  end.

(** [o.get(k, default)] for an arbitrary decoded value [o]. *)
Definition py_get (o : value) (k : pystr) (default : value) : result value :=
  match o with
  | VDict d => Ok (from_option id default (dict_get k d))
  | _ => Raise (AttributeError_get o)
  end.

(** [o[k] = v] for an arbitrary decoded value [o] and a string [k]. *)
Definition py_setitem (o : value) (k : pystr) (v : value) : result value :=
  match o with
  | VDict d => Ok (VDict (dict_set k v d))
  | _ => Raise (TypeError_setitem o)
  end.

(** [bool(v)] *)
Definition truthy (v : value) : bool :=
  match v with
  | VNone => false
  | VBool b => b
  | VNum (PInt z) => negb (z =? 0)
  | VNum (PFloat (S754_zero _)) => false
  | VNum (PFloat _) => true
  | VStr s => negb (bool_decide (s = []))
  | VList l => match l with [] => false | _ => true end
  | VDict d => match d with [] => false | _ => true end
  end.

(** ** The per-date store ([calorie_data]) *)

Record DailyRecord := {
  meals : list value;
  total_calories : pynum;
  total_protein : pynum;
  total_carbs : pynum;
  total_fat : pynum;
  total_fiber : pynum
}.

(** The literal of lines 178-185 and 198-205. *)
Definition empty_record : DailyRecord :=
  {| meals := []; total_calories := PInt 0; total_protein := PInt 0;
     total_carbs := PInt 0; total_fat := PInt 0; total_fiber := PInt 0 |}.

Inductive nutrient := Calories | Protein | Carbs | Fat | Fiber.

Definition nutrients : list nutrient := [Calories; Protein; Carbs; Fat; Fiber].

Definition field_name (n : nutrient) : pystr :=
  match n with
  | Calories => str "total_calories"
  | Protein => str "total_protein"
  | Carbs => str "total_carbs"
  | Fat => str "total_fat"
  | Fiber => str "total_fiber"
  end.

(** [rec[field_name n]] *)
Definition total (n : nutrient) (r : DailyRecord) : pynum :=
  match n with
  | Calories => total_calories r
  | Protein => total_protein r
  | Carbs => total_carbs r
  | Fat => total_fat r
  | Fiber => total_fiber r
  end.

(** [rec[field_name n] = t] *)
Definition set_total (n : nutrient) (t : pynum) (r : DailyRecord) : DailyRecord :=
  match n with
  | Calories => {| meals := meals r; total_calories := t; total_protein := total_protein r;
                   total_carbs := total_carbs r; total_fat := total_fat r;
                   total_fiber := total_fiber r |}
  | Protein => {| meals := meals r; total_calories := total_calories r; total_protein := t;
                  total_carbs := total_carbs r; total_fat := total_fat r;
                  total_fiber := total_fiber r |}
  | Carbs => {| meals := meals r; total_calories := total_calories r;
                total_protein := total_protein r; total_carbs := t;
                total_fat := total_fat r; total_fiber := total_fiber r |}
  | Fat => {| meals := meals r; total_calories := total_calories r;
              total_protein := total_protein r; total_carbs := total_carbs r;
              total_fat := t; total_fiber := total_fiber r |}
  | Fiber => {| meals := meals r; total_calories := total_calories r;
                total_protein := total_protein r; total_carbs := total_carbs r;
                total_fat := total_fat r; total_fiber := t |}
  end.

(** [rec['meals'].append(m)] *)
Definition add_meal (m : value) (r : DailyRecord) : DailyRecord :=
  {| meals := meals r ++ [m]; total_calories := total_calories r;
     total_protein := total_protein r; total_carbs := total_carbs r;
     total_fat := total_fat r; total_fiber := total_fiber r |}.

(** The record as the [dict] handed to [jsonify]. *)
Definition record_value (r : DailyRecord) : value :=
  VDict [(str "meals", VList (meals r));
         (str "total_calories", VNum (total_calories r));
         (str "total_protein", VNum (total_protein r));
         (str "total_carbs", VNum (total_carbs r));
         (str "total_fat", VNum (total_fat r));
         (str "total_fiber", VNum (total_fiber r))].

(** [calorie_data]: keys in insertion order, each with its record. *)
Definition store := list (value * DailyRecord).

(** [calorie_data.get(k)] *)
Fixpoint store_get (k : value) (st : store) : option DailyRecord :=
  match st with
  | [] => None
  | (k', r) :: st' => if key_eq k' k then Some r else store_get k st'
  end.

(** ** Statements that update one record and may raise *)

Definition upd (A : Type) : Type := DailyRecord -> result A * DailyRecord.

#[export] Instance upd_ret : MRet upd := fun A a r => (Ok a, r).
#[export] Instance upd_bind : MBind upd := fun A B f m r =>
  match m r with
  | (Ok a, r') => f a r'
  | (Raise e, r') => (Raise e, r')
  end.

(** Runs [body] on the record stored under [date]; a date that is not yet a
    key first gets the zeroed record of lines 178-185, at the end of the
    dictionary.  What [body] did to the record stays done when it raises. *)
Fixpoint at_key {A} (date : value) (body : upd A) (st : store) : result A * store :=
  match st with
  | [] => let (a, r') := body empty_record in (a, [(date, r')])
  | (k, r) :: st' =>
      if key_eq k date then let (a, r') := body r in (a, (k, r') :: st')
      else let (a, st'') := at_key date body st' in (a, (k, r) :: st'')
  end.

(** ** Responses *)

Inductive response :=
| Reply (status : N) (body : value)      (* return jsonify(body), status *)
| ServerError (e : exn).                 (* an exception left the handler: 500 *)

Definition handler := store -> response * store.

Definition error_body (msg : pystr) : value := VDict [(str "error", VStr msg)].

(** ** [save_meal], lines 172-194 *)

(** Line 187. *)
Definition append_meal (data : value) : upd unit :=
  fun r => (Ok (), add_meal data r).

(** The right-hand side of lines 188-192 for a running total [t]:
    [t + m.get(field_name n, 0)]. *)
Definition add_meal_total (n : nutrient) (t : pynum) (m : value) : result pynum :=
  py_get m (field_name n) (VNum (PInt 0)) ≫= py_iadd t.

(** One of lines 188-192: [rec[f] += data.get(f, 0)]. *)
Definition add_total (n : nutrient) (data : value) : upd unit :=
  fun r =>
    match add_meal_total n (total n r) data with
    | Ok t => (Ok (), set_total n t r)
    | Raise e => (Raise e, r)
    end.

(** Lines 187-192. *)
Definition record_meal (data : value) : upd unit :=
  append_meal data;;
  add_total Calories data;;
  add_total Protein data;;
  add_total Carbs data;;
  add_total Fat data;;
  add_total Fiber data.

(** The answer of line 194. *)
Definition saved (date : value) : value :=
  VDict [(str "success", VBool true); (str "date", date)].

(** [today] is [datetime.now().strftime('%Y-%m-%d')]; [data] is
    [request.json]. *)
Definition save_meal (today : pystr) (data : value) : handler :=
  fun st =>
    match py_get data (str "date") (VStr today) with
    | Raise e => (ServerError e, st)
    | Ok date =>
        if hashable date then
          match at_key date (record_meal data) st with
          | (Ok _, st') =>
              (Reply 200 (saved date), st')
          | (Raise e, st') => (ServerError e, st')
          end
        else (ServerError (TypeError_unhashable date), st)
    end.

(** ** [get_daily_data], lines 196-206 *)

(** [jsonify] is taken to write out the record it is handed; the limit it
    has on the length of an [int] is not part of the model. *)
Definition get_daily_data (date : pystr) : handler :=
  fun st =>
    (Reply 200 (record_value (default empty_record (store_get (VStr date) st))), st).

(** ** [get_all_dates], lines 208-211 *)

Definition get_all_dates : handler :=
  fun st =>
    match sorted_reverse st.*1 with
    | Ok dates => (Reply 200 (VList dates), st)
    | Raise e => (ServerError e, st)
    end.

(** ** The outside world *)

(** The two prompt templates (lines 63-85 and 127-152); the second one
    interpolates the user's modifications. *)
Inductive prompt :=
| AnalyzePrompt
| ReanalyzePrompt (modifications : value).

Record env := {
  json_loads : pystr -> result value;               (* json.loads *)
  secure_filename : pystr -> pystr;                 (* werkzeug.utils.secure_filename *)
  file_save : pystr -> result ();                   (* file.save(filepath) *)
  image_open : pystr -> result ();                  (* Image.open(filepath) *)
  generate_text : prompt -> pystr -> result pystr;  (* model.generate_content([prompt, img]).text *)
  upload_url : pystr -> pystr;                      (* url_for('uploaded_file', filename=.., _external=True) *)
  path_exists : pystr -> bool;                      (* os.path.exists *)
  now_stamp : pystr;                                (* datetime.now().strftime('%Y%m%d_%H%M%S') *)
  now_iso : pystr                                   (* datetime.now().isoformat() *)
}.

(** ** Paths and file names *)

(** The part of [s] after its last [c], if [c] occurs. *)
Fixpoint after_last (c : N) (s : pystr) : option pystr :=
  match s with
  | [] => None
  | x :: s' =>
      match after_last c s' with
      | Some t => Some t
      | None => if (x =? c)%N then Some s' else None
      end
  end.

(** [str.lower] on ASCII letters.  No other code point lowers to a string of
    ASCII letters and digits, except U+212A which lowers to [k]; no allowed
    extension has a [k], so membership in [ALLOWED_EXTENSIONS] is decided
    the same. *)
Definition ascii_lower (s : pystr) : pystr :=
  (fun c => if (65 <=? c) && (c <=? 90) then c + 32 else c)%N <$> s.

Definition ALLOWED_EXTENSIONS : list pystr := [str "png"; str "jpg"; str "jpeg"; str "webp"].

(** Lines 27-28. *)
Definition allowed_file (filename : pystr) : bool :=
  match after_last 46 filename with
  | Some ext => bool_decide (ascii_lower ext ∈ ALLOWED_EXTENSIONS)
  | None => false
  end.

(** [os.path.join(a, b)] on POSIX. *)
Definition path_join (a b : pystr) : pystr :=
  if startswith b (str "/") then b
  else if bool_decide (a = []) || endswith a (str "/") then a ++ b
  else a ++ str "/" ++ b.

(** [os.path.basename(p)] on POSIX. *)
Definition basename (p : pystr) : pystr := default p (after_last 47 p).

Definition UPLOAD_FOLDER : pystr := str "uploads".

(** ** Reading the model's reply *)

Definition fence_open : pystr := str "```json".
Definition fence_close : pystr := str "```".

(** Lines 90-96 (and 156-162): the text handed to [json.loads]. *)
Definition clean_text (text : pystr) : pystr :=
  let t := strip text in
  let t := if startswith t fence_open then slice_from 7 t else t in
  let t := if endswith t fence_close then slice_to_minus 3 t else t in
  strip t.

(** Lines 90-96: the decoded reply. *)
Definition extract (E : env) (text : pystr) : result value :=
  json_loads E (clean_text text).

(** Lines 97-99 (and 163-165): the three stamps put on the decoded reply. *)
Definition normalize (parsed : value) (image_url : pystr) (meal_type : value)
    (timestamp : pystr) : result value :=
  r ← py_setitem parsed (str "image_path") (VStr image_url);
  r ← py_setitem r (str "meal_type") meal_type;
  py_setitem r (str "timestamp") (VStr timestamp).

(** The body of the [try] block, lines 61-101 and 125-167. *)
Definition analysis (E : env) (p : prompt) (filepath filename : pystr)
    (meal_type : value) : result value :=
  image_open E filepath;;
  text ← generate_text E p filepath;
  parsed ← extract E text;
  normalize parsed (upload_url E filename) meal_type (now_iso E).

(** [try: ... return jsonify(result)] / [except Exception as e: ... 500]. *)
Definition respond (label : pystr) (r : result value) : response :=
  match r with
  | Ok v => Reply 200 v
  | Raise e => Reply 500 (error_body (label ++ exn_str e))
  end.

(** ** [analyze_food], lines 43-106

    [image] is the file name of [request.files['image']] when there is such
    a part; [meal_type] is [request.form.get('meal_type')]. *)
Definition analyze_food (E : env) (image : option pystr) (meal_type : option pystr)
    : handler :=
  fun st =>
    match image with
    | None => (Reply 400 (error_body (str "No image provided")), st)
    | Some name =>
        if bool_decide (name = []) then
          (Reply 400 (error_body (str "No selected file")), st)
        else if allowed_file name then
          let filename := secure_filename E (now_stamp E ++ str "_" ++ name) in
          let filepath := path_join UPLOAD_FOLDER filename in
          match file_save E filepath with
          | Raise e => (ServerError e, st)
          | Ok _ =>
              (respond (str "Analysis failed: ")
                 (analysis E AnalyzePrompt filepath filename
                    (VStr (default (str "snack") meal_type))), st)
          end
        else (Reply 400 (error_body (str "Invalid file type")), st)
    end.

(** ** [reanalyze_food], lines 108-170; [data] is [request.json]. *)
Definition reanalyze_food (E : env) (data : value) : handler :=
  fun st =>
    match
      image_path ← py_get data (str "image_path") VNone;
      modifications ← py_get data (str "modifications") (VStr []);
      meal_type ← py_get data (str "meal_type") (VStr (str "snack"));
      Ok (image_path, modifications, meal_type)
    with
    | Raise e => (ServerError e, st)
    | Ok (image_path, modifications, meal_type) =>
        if negb (truthy image_path) then
          (Reply 400 (error_body (str "No image path provided")), st)
        else
          match image_path with
          | VStr p =>
              let filename := basename p in
              let filepath := path_join UPLOAD_FOLDER filename in
              if path_exists E filepath then
                (respond (str "Reanalysis failed: ")
                   (analysis E (ReanalyzePrompt modifications) filepath filename meal_type),
                 st)
              else (Reply 404 (error_body (str "Image not found")), st)
          | _ => (ServerError (TypeError_path image_path), st)
          end
    end.

(** ** A JSON reader to run the handlers on

    [json.loads] belongs to the standard library, so the theorems below hold
    for any [json_loads].  To evaluate the handlers on concrete replies this
    reader follows the grammar [json.loads] accepts (with [NaN] and
    [Infinity], strict strings, later duplicate keys overwriting earlier
    ones); the text of its error message is not CPython's, and it puts no
    limit on the length of an integer. *)
Module Reader.

Definition bad : exn := LibraryError (str "Expecting value").

Fixpoint skip_ws (s : pystr) : pystr :=
  match s with
  | c :: s' =>
      if ((c =? 32) || (c =? 9) || (c =? 10) || (c =? 13))%N then skip_ws s' else s
  | [] => []
  end.

Definition is_digit (c : N) : bool := ((48 <=? c) && (c <=? 57))%N.

(** Reads a maximal run of digits: the digits as a number, how many there
    were, and the rest. *)
Fixpoint digits (acc : Z) (n : Z) (s : pystr) : Z * Z * pystr :=
  match s with
  | c :: s' =>
      if is_digit c then digits (10 * acc + Z.of_N (c - 48)) (n + 1) s' else (acc, n, s)
  | [] => (acc, n, s)
  end.

(** The binary64 nearest to [m * 10 ^ e], for [m > 0]. *)
Definition decimal_to_float (neg : bool) (m : Z) (e : Z) : float :=
  if m =? 0 then S754_zero neg
  else if 0 <=? e then binary_normalize 53 1024 ((if neg then - m else m) * 10 ^ e) 0 false
  else
    let d := 10 ^ (- e) in
    let k := 64 + Z.log2 d + 1 in
    let q := (m * 2 ^ k) / d in
    let sticky := if (m * 2 ^ k) mod d =? 0 then 0 else 1 in
    let m' := 2 * q + sticky in
    binary_normalize 53 1024 (if neg then - m' else m') (- k - 1) false.

(** A number literal: an optional minus, then 0 or a run of digits that
    does not start with 0, then an optional fraction, then an optional
    exponent. *)
Definition number (s : pystr) : option (pynum * pystr) :=
  let '(neg, s) := match s with 45%N :: s' => (true, s') | _ => (false, s) end in
  let '(ip, n, s1) :=
    match s with
    | 48%N :: s' => (0, 1, s')
    | _ => digits 0 0 s
    end in
  if n =? 0 then None
  else
    let '(fp, fn, s2, has_frac) :=
      match s1 with
      | 46%N :: s' =>
          let '(fp, fn, s'') := digits 0 0 s' in
          if fn =? 0 then (0, 0, s1, false) else (fp, fn, s'', true)
      | _ => (0, 0, s1, false)
      end in
    let '(ex, s3, has_exp) :=
      match s2 with
      | c :: s' =>
          if ((c =? 101) || (c =? 69))%N then
            let '(eneg, s'') :=
              match s' with
              | 45%N :: t => (true, t)
              | 43%N :: t => (false, t)
              | _ => (false, s')
              end in
            let '(ev, en, s''') := digits 0 0 s'' in
            if en =? 0 then (0, s2, false) else (if eneg then - ev else ev, s''', true)
          else (0, s2, false)
      | [] => (0, s2, false)
      end in
    if has_frac || has_exp then
      Some (PFloat (decimal_to_float neg (ip * 10 ^ fn + fp) (ex - fn)), s3)
    else Some (PInt (if neg then - ip else ip), s3).

Definition hex_digit (c : N) : option N :=
  (if is_digit c then Some (c - 48)
   else if (97 <=? c) && (c <=? 102) then Some (c - 87)
   else if (65 <=? c) && (c <=? 70) then Some (c - 55)
   else None)%N.

Definition hex4 (s : pystr) : option (N * pystr) :=
  match s with
  | a :: b :: c :: d :: s' =>
      a ← hex_digit a; b ← hex_digit b; c ← hex_digit c; d ← hex_digit d;
      Some (((a * 16 + b) * 16 + c) * 16 + d, s')%N
  | _ => None
  end.

(** The characters of a string literal, after its opening quote. *)
Fixpoint chars (fuel : nat) (acc : pystr) (s : pystr) : option (pystr * pystr) :=
  match fuel with
  | O => None
  | S fuel =>
      match s with
      | 34%N :: s' => Some (reverse acc, s')
      | 92%N :: 117%N :: s' =>
          '(u, s'') ← hex4 s';
          if ((55296 <=? u) && (u <=? 56319))%N then
            match s'' with
            | 92%N :: 117%N :: t =>
                match hex4 t with
                | Some (l, t') =>
                    if ((56320 <=? l) && (l <=? 57343))%N then
                      chars fuel ((65536 + (u - 55296) * 1024 + (l - 56320))%N :: acc) t'
                    else chars fuel (u :: acc) s''
                | None => chars fuel (u :: acc) s''
                end
            | _ => chars fuel (u :: acc) s''
            end
          else chars fuel (u :: acc) s''
      | 92%N :: c :: s' =>
          c' ← (if c =? 34 then Some 34 else if c =? 92 then Some 92
                else if c =? 47 then Some 47 else if c =? 98 then Some 8
                else if c =? 102 then Some 12 else if c =? 110 then Some 10
                else if c =? 114 then Some 13 else if c =? 116 then Some 9
                else None)%N;
          chars fuel (c' :: acc) s'
      | c :: s' => if (c <? 32)%N then None else chars fuel (c :: acc) s'
      | [] => None
      end
  end.

Fixpoint parse_value (fuel : nat) (s : pystr) : option (value * pystr) :=
  match fuel with
  | O => None
  | S fuel =>
      match s with
      | 123%N :: s' =>
          match skip_ws s' with
          | 125%N :: s'' => Some (VDict [], s'')
          | s'' => parse_members fuel [] s''
          end
      | 91%N :: s' =>
          match skip_ws s' with
          | 93%N :: s'' => Some (VList [], s'')
          | s'' => parse_elements fuel [] s''
          end
      | 34%N :: s' => '(t, s'') ← chars (length s') [] s'; Some (VStr t, s'')
      | 110%N :: 117%N :: 108%N :: 108%N :: s' => Some (VNone, s')
      | 116%N :: 114%N :: 117%N :: 101%N :: s' => Some (VBool true, s')
      | 102%N :: 97%N :: 108%N :: 115%N :: 101%N :: s' => Some (VBool false, s')
      | 78%N :: 97%N :: 78%N :: s' => Some (VNum (PFloat S754_nan), s')
      | 73%N :: 110%N :: 102%N :: 105%N :: 110%N :: 105%N :: 116%N :: 121%N :: s' =>
          Some (VNum (PFloat (S754_infinity false)), s')
      | 45%N :: 73%N :: 110%N :: 102%N :: 105%N :: 110%N :: 105%N :: 116%N :: 121%N :: s' =>
          Some (VNum (PFloat (S754_infinity true)), s')
      | _ => '(n, s') ← number s; Some (VNum n, s')
      end
  end
with parse_elements (fuel : nat) (acc : list value) (s : pystr)
    : option (value * pystr) :=
  match fuel with
  | O => None
  | S fuel =>
      '(v, s') ← parse_value fuel s;
      match skip_ws s' with
      | 44%N :: s'' => parse_elements fuel (acc ++ [v]) (skip_ws s'')
      | 93%N :: s'' => Some (VList (acc ++ [v]), s'')
      | _ => None
      end
  end
with parse_members (fuel : nat) (acc : dict) (s : pystr) : option (value * pystr) :=
  match fuel with
  | O => None
  | S fuel =>
      match s with
      | 34%N :: s' =>
          '(k, s'') ← chars (length s') [] s';
          match skip_ws s'' with
          | 58%N :: s3 =>
              '(v, s4) ← parse_value fuel (skip_ws s3);
              match skip_ws s4 with
              | 44%N :: s5 => parse_members fuel (dict_set k v acc) (skip_ws s5)
              | 125%N :: s5 => Some (VDict (dict_set k v acc), s5)
              | _ => None
              end
          | _ => None
          end
      | _ => None
      end
  end.

Definition loads (s : pystr) : result value :=
  match parse_value (2 * length s + 2) (skip_ws s) with
  | Some (v, rest) => match skip_ws rest with [] => Ok v | _ => Raise bad end
  | None => Raise bad
  end.

End Reader.

(** A world in which every outside call succeeds and the model answers
    [reply]; [secure_filename] leaves the plain names used below as they
    are. *)
Definition sample_env (reply : pystr) : env :=
  {| json_loads := Reader.loads;
     secure_filename := id;
     file_save := fun _ => Ok ();
     image_open := fun _ => Ok ();
     generate_text := fun _ _ => Ok reply;
     upload_url := fun f => str "http://localhost:5000/uploads/" ++ f;
     path_exists := fun _ => true;
     now_stamp := str "20240101_120000";
     now_iso := str "2024-01-01T12:00:00" |}.

(** ** Sequences of requests to the store *)

Inductive op :=
| Save (today : pystr) (data : value)    (* POST /save_meal *)
| Get (date : pystr)                     (* GET /get_daily_data/<date> *)
| ListDates.                             (* GET /get_all_dates *)

Definition handle (o : op) : handler :=
  match o with
  | Save today data => save_meal today data
  | Get date => get_daily_data date
  | ListDates => get_all_dates
  end.

(** The store after the requests [ops], served one after the other. *)
Definition run (ops : list op) (st : store) : store :=
  foldl (fun st o => (handle o st).2) st ops.



(** The key a [Save] request files its meal under, when it gets that far. *)
Definition save_key (today : pystr) (data : value) : option value :=
  match py_get data (str "date") (VStr today) with
  | Ok date => if hashable date then Some date else None
  | Raise _ => None
  end.

(** The dates the [Save] requests of [ops] file a meal under. *)
Definition saved_keys (ops : list op) : list value :=
  omap (fun o => match o with Save today data => save_key today data | _ => None end) ops.

(** ** Sums over the meals of a record *)



(** ** Strings in order *)

Definition str_le (a b : pystr) : Prop := str_ltb b a = false.

(** Insertion into an ascending list of strings, after the equal ones. *)
Fixpoint str_insort (x : pystr) (l : list pystr) : list pystr :=
  match l with
  | [] => [x]
  | y :: l' => if str_ltb x y then x :: y :: l' else y :: str_insort x l'
  end.

Definition str_sort_asc (l : list pystr) : list pystr :=
  foldl (fun acc x => str_insort x acc) [] l.

Definition blank (w : pystr) : Prop := Forall (fun c => is_space c = true) w.

(** The float [-0.0]: the one number that [0 + x] does not give back. *)
Definition neg_zero : pynum := PFloat (S754_zero true).

(** The float [0.0], which [0 + -0.0] gives instead. *)
Definition pos_zero : pynum := PFloat (S754_zero false).

(** The response carries an error message and nothing else. *)
Definition error_only (r : response) : Prop :=
  (∃ status msg, r = Reply status (error_body msg)) ∨ (∃ e, r = ServerError e).

(** The request was not answered with status 200. *)
Definition failed (r : response) : Prop := ∀ body, r ≠ Reply 200 body.

(** The decoded reply with its three stamps. *)
Definition stamped (fields : dict) (image_url : pystr) (meal_type : value)
    (timestamp : pystr) : dict :=
  dict_set (str "timestamp") (VStr timestamp)
    (dict_set (str "meal_type") meal_type
       (dict_set (str "image_path") (VStr image_url) fields)).

(** ** Sample data *)

(** JSON text written with ' for the double quote. *)
Definition json_text (s : string) : pystr :=
  (fun c => if (c =? 39)%N then 34%N else c) <$> str s.

(** The float written [m]e[e] in decimal. *)
Definition decimal (m e : Z) : pynum := PFloat (Reader.decimal_to_float false m e).

(** A meal as [/save_meal] receives it. *)
Definition sample_meal (date : string) (calories protein carbs fat fiber : pynum) : dict :=
  [(str "date", VStr (str date)); (str "items", VList []);
   (str "total_calories", VNum calories); (str "total_protein", VNum protein);
   (str "total_carbs", VNum carbs); (str "total_fat", VNum fat);
   (str "total_fiber", VNum fiber)].

Definition apple : dict :=
  sample_meal "2024-01-01" (PInt 95) (decimal 5 (-1)) (PInt 25) (decimal 3 (-1))
    (decimal 44 (-1)).

Definition toast : dict :=
  sample_meal "2024-01-01" (PInt 150) (PInt 6) (decimal 275 (-1)) (decimal 2 0) (PInt 2).

Definition totals_of (m : dict) (n : nutrient) : pynum :=
  match dict_get (field_name n) m with
  | Some (VNum x) => x
  | _ => PInt 0
  end.

(** The sum of two totals, [0] when it is not defined. *)
Definition plus (a b : pynum) : pynum :=
  match py_add a b with
  | Ok c => c
  | Raise _ => PInt 0
  end.

(** ** Kinds of keys *)

Definition is_str (v : value) : bool :=
  match v with
  | VStr _ => true
  | _ => false
  end.

Definition is_num (v : value) : bool :=
  match as_number v with
  | Some _ => true
  | None => false
  end.

(** Keys that [<] orders without raising: all strings, all numbers, or at
    most one key. *)
Definition one_kind (l : list value) : Prop :=
  Forall (fun v => is_str v = true) l
  ∨ Forall (fun v => is_num v = true) l
  ∨ (length l ≤ 1)%nat.

(** ** Meals with integer totals *)

(** What [m.get(field_name n, 0)] is when it is an [int] (or a [bool]). *)
Definition int_total (n : nutrient) (m : value) : option Z :=
  match m with
  | VDict fields =>
      match dict_get (field_name n) fields with
      | None => Some 0
      | Some (VNum (PInt z)) => Some z
      | Some (VBool b) => Some (if b then 1 else 0)
      | Some _ => None
      end
  | _ => None
  end.

(** Every total of the meal is absent or an integer. *)
Definition int_meal (m : value) : Prop := ∀ n, is_Some (int_total n m).

(** The integer sum of nutrient [n] over [ms]. *)
Definition int_sum (n : nutrient) (ms : list value) : Z :=
  foldr (fun m acc => default 0 (int_total n m) + acc) 0 ms.

(** Each running total is the integer sum over the meals. *)
Definition int_record (r : DailyRecord) : Prop :=
  ∀ n, total n r = PInt (int_sum n (meals r)).

(** The path under which an upload named [name] is kept. *)
Definition upload_path (name : pystr) : pystr := str "uploads/" ++ name.

(** * Facts *)

(** ** Stripping *)

Section Stripping.
Implicit Types s w m : pystr.

Lemma lstrip_blank_app w s : blank w -> lstrip (w ++ s) = lstrip s.
Proof. induction 1 as [|c w Hc _ IH]; simpl; [done|]. by rewrite Hc. Qed.

Lemma lstrip_blank w : blank w -> lstrip w = [].
Proof. intros H. rewrite <-(app_nil_r w). by rewrite lstrip_blank_app. Qed.

Lemma blank_reverse w : blank w -> blank (reverse w).
Proof.
  unfold blank. rewrite !Forall_forall. intros H c Hc. apply H.
  by apply elem_of_reverse.
Qed.

Lemma blank_app w1 w2 : blank w1 -> blank w2 -> blank (w1 ++ w2).
Proof. apply Forall_app_2. Qed.

Lemma rstrip_app_blank s w : blank w -> rstrip (s ++ w) = rstrip s.
Proof.
  intros H. unfold rstrip. rewrite reverse_app.
  by rewrite lstrip_blank_app by by apply blank_reverse.
Qed.

Lemma rstrip_snoc c s : is_space c = false -> rstrip (s ++ [c]) = s ++ [c].
Proof.
  intros H. unfold rstrip. rewrite reverse_snoc. simpl. rewrite H.
  by rewrite reverse_cons, reverse_involutive.
Qed.

Lemma rstrip_blank w : blank w -> rstrip w = [].
Proof.
  intros H. unfold rstrip. by rewrite lstrip_blank by by apply blank_reverse.
Qed.

(** Stripping sees through blanks on either side. *)
Lemma strip_blank_around w1 s w2 :
  blank w1 -> blank w2 -> strip (w1 ++ s ++ w2) = strip s.
Proof.
  intros H1 H2. unfold strip. rewrite lstrip_blank_app by done.
  induction s as [|c s IH].
  - by rewrite app_nil_l, lstrip_blank.
  - rewrite <-app_comm_cons. cbn [lstrip]. destruct (is_space c); [done|].
    by rewrite (app_comm_cons s w2 c), rstrip_app_blank.
Qed.

Lemma startswith_app p s : startswith (p ++ s) p = true.
Proof. induction p as [|c p IH]; simpl; [done|]. rewrite N.eqb_refl. exact IH. Qed.

Lemma endswith_app s p : endswith (s ++ p) p = true.
Proof. unfold endswith. rewrite reverse_app. apply startswith_app. Qed.

Lemma slice_to_minus_app s p : slice_to_minus (length p) (s ++ p) = s.
Proof.
  unfold slice_to_minus. rewrite length_app.
  replace (length s + length p - length p)%nat with (length s) by lia.
  apply take_app_length.
Qed.

(** What is left of a fenced reply is the stripped inside of the fence. *)
Lemma clean_text_fenced w1 m w2 :
  blank w1 -> blank w2 ->
  clean_text (w1 ++ fence_open ++ m ++ fence_close ++ w2) = strip m.
Proof.
  intros H1 H2. unfold clean_text.
  assert (strip (w1 ++ fence_open ++ m ++ fence_close ++ w2)
          = fence_open ++ m ++ fence_close) as ->.
  { unfold strip. rewrite lstrip_blank_app by done.
    change (lstrip (fence_open ++ m ++ fence_close ++ w2))
      with (fence_open ++ m ++ fence_close ++ w2).
    replace (fence_open ++ m ++ fence_close ++ w2)
      with (((fence_open ++ m ++ str "``") ++ [96%N]) ++ w2)
      by (by rewrite <-!app_assoc).
    rewrite rstrip_app_blank, rstrip_snoc by done.
    by rewrite <-!app_assoc. }
  rewrite startswith_app.
  change (slice_from 7 (fence_open ++ m ++ fence_close)) with (m ++ fence_close).
  rewrite endswith_app.
  by rewrite (slice_to_minus_app m fence_close : slice_to_minus 3 _ = _).
Qed.

End Stripping.

(** ** Reading the reply *)

(** C4. Take JSON text [s] that [json.loads] decodes to [j] and that has no
    blank at either end, as a serialization has.  Wrap it in a fence that
    opens with ```json and closes with ```, with blanks allowed around the
    fence and between the fence and [s].  Then the reply is decoded to [j]. *)
Theorem extract_fenced_json (E : env) (j : value) (s w1 w2 w3 w4 : pystr) :
  json_loads E s = Ok j -> strip s = s ->
  blank w1 -> blank w2 -> blank w3 -> blank w4 ->
  extract E (w1 ++ fence_open ++ (w2 ++ s ++ w3) ++ fence_close ++ w4) = Ok j.
Proof.
  intros Hj Hs H1 H2 H3 H4. unfold extract.
  by rewrite clean_text_fenced, strip_blank_around, Hs.
Qed.

Lemma extract_fenced_json_witness :
  extract (sample_env [])
    (str " " ++ fence_open ++ ([10%N] ++ str "{}" ++ [10%N]) ++ fence_close ++ [10%N])
  = Ok (VDict []).
Proof.
  apply extract_fenced_json; [reflexivity | reflexivity | | | |];
    repeat constructor.
Defined.

(** C5. When what is left of the reply after stripping and removing the
    two optional markers is not JSON, nothing is decoded: the exception of
    [json.loads] is the outcome, and the handler answers 500 with only an
    error message. *)
Theorem extract_rejects_unparseable (E : env) (text : pystr) (e : exn) :
  json_loads E (clean_text text) = Raise e ->
  extract E text = Raise e ∧
  ∀ p filepath filename meal_type label,
    image_open E filepath = Ok () ->
    generate_text E p filepath = Ok text ->
    respond label (analysis E p filepath filename meal_type)
    = Reply 500 (error_body (label ++ exn_str e)).
Proof.
  intros He. split; [done|].
  intros p filepath filename meal_type label Hopen Hgen.
  unfold analysis, extract. rewrite Hopen, Hgen. simpl. by rewrite He.
Qed.

Lemma extract_rejects_unparseable_witness :
  extract (sample_env []) (str "```json I see an apple ```") = Raise Reader.bad.
Proof.
  exact (proj1 (extract_rejects_unparseable (sample_env [])
                  (str "```json I see an apple ```") Reader.bad eq_refl)).
Defined.

(** ** Stamping the decoded reply *)

Lemma dict_get_set (k k' : pystr) (v : value) (d : dict) :
  dict_get k' (dict_set k v d) = if decide (k = k') then Some v else dict_get k' d.
Proof.
  induction d as [|[k0 v0] d IH]; simpl.
  - by repeat case_decide.
  - repeat (case_decide; simpl); congruence.
Qed.

Lemma dict_get_stamped (k : pystr) (fields : dict) image_url meal_type timestamp :
  k ≠ str "image_path" -> k ≠ str "meal_type" -> k ≠ str "timestamp" ->
  dict_get k (stamped fields image_url meal_type timestamp) = dict_get k fields.
Proof.
  intros H1 H2 H3. unfold stamped. rewrite !dict_get_set.
  by repeat case_decide.
Qed.

Lemma normalize_dict (fields : dict) image_url meal_type timestamp :
  normalize (VDict fields) image_url meal_type timestamp
  = Ok (VDict (stamped fields image_url meal_type timestamp)).
Proof. done. Qed.

(** C3, as the code has it.  The reply is not checked for [items] or for the
    totals.  Stamping raises exactly when the decoded reply is not a [dict]
    (the [TypeError] of the first item assignment); a [dict] is accepted
    whatever keys it has, and comes back with [image_path], [meal_type] and
    [timestamp] set and [items] and the totals as they were, absent ones
    still absent. *)
Theorem normalize_checks_no_field (parsed : value) (image_url : pystr)
    (meal_type : value) (timestamp : pystr) :
  match parsed with
  | VDict fields =>
      normalize parsed image_url meal_type timestamp
      = Ok (VDict (stamped fields image_url meal_type timestamp))
      ∧ dict_get (str "items") (stamped fields image_url meal_type timestamp)
        = dict_get (str "items") fields
      ∧ ∀ n, dict_get (field_name n) (stamped fields image_url meal_type timestamp)
             = dict_get (field_name n) fields
  | _ => normalize parsed image_url meal_type timestamp = Raise (TypeError_setitem parsed)
  end.
Proof.
  destruct parsed; try done.
  split; [done|]. split; [by apply dict_get_stamped|].
  intros n. by destruct n; apply dict_get_stamped.
Qed.

(** C3 as stated fails: a reply that is the empty object, with neither
    [items] nor any total, is stamped and answered with status 200. *)
Lemma normalize_accepts_empty_object :
  normalize (VDict []) (str "img1.jpg") (VStr (str "snack")) (str "2024-01-01T12:00:00")
  = Ok (VDict [(str "image_path", VStr (str "img1.jpg"));
               (str "meal_type", VStr (str "snack"));
               (str "timestamp", VStr (str "2024-01-01T12:00:00"))])
  ∧ analyze_food (sample_env (str "{}")) (Some (str "apple.jpg")) None []
    = (Reply 200
         (VDict [(str "image_path",
                  VStr (str "http://localhost:5000/uploads/20240101_120000_apple.jpg"));
                 (str "meal_type", VStr (str "snack"));
                 (str "timestamp", VStr (str "2024-01-01T12:00:00"))]), []).
Proof. split; reflexivity. Qed.

(** C8. Stamping a decoded object succeeds and leaves each of the five
    totals exactly as decoded, whatever [items] holds: a total that is there
    keeps its value, and none is computed from the items. *)
Theorem normalize_keeps_totals (fields : dict) (image_url : pystr)
    (meal_type : value) (timestamp : pystr) :
  ∃ out,
    normalize (VDict fields) image_url meal_type timestamp = Ok (VDict out)
    ∧ ∀ n, dict_get (field_name n) out = dict_get (field_name n) fields.
Proof.
  eexists. split; [apply normalize_dict|].
  intros n. by destruct n; apply dict_get_stamped.
Qed.

(** The end-to-end scenario of the specification: a fenced reply about one
    apple, uploaded as [img1.jpg] for a snack. *)
Example analyze_apple :
  analyze_food
    (sample_env
       (str "```json" ++ [10%N]
        ++ json_text "{'items':[{'name':'apple','quantity':'1','calories':95,'protein':0.5,'carbs':25,'fat':0.3,'fiber':4.4}],'total_calories':95,'total_protein':0.5,'total_carbs':25,'total_fat':0.3,'total_fiber':4.4}"
        ++ [10%N] ++ str "```"))
    (Some (str "img1.jpg")) (Some (str "snack")) []
  = (Reply 200
       (VDict [(str "items",
                VList [VDict [(str "name", VStr (str "apple"));
                              (str "quantity", VStr (str "1"));
                              (str "calories", VNum (PInt 95));
                              (str "protein", VNum (decimal 5 (-1)));
                              (str "carbs", VNum (PInt 25));
                              (str "fat", VNum (decimal 3 (-1)));
                              (str "fiber", VNum (decimal 44 (-1)))]]);
               (str "total_calories", VNum (PInt 95));
               (str "total_protein", VNum (decimal 5 (-1)));
               (str "total_carbs", VNum (PInt 25));
               (str "total_fat", VNum (decimal 3 (-1)));
               (str "total_fiber", VNum (decimal 44 (-1)));
               (str "image_path",
                VStr (str "http://localhost:5000/uploads/20240101_120000_img1.jpg"));
               (str "meal_type", VStr (str "snack"));
               (str "timestamp", VStr (str "2024-01-01T12:00:00"))]), []).
Proof. vm_compute. reflexivity. Qed.

(** ** The two analysis handlers *)

Lemma respond_failed_error_only (label : pystr) (r : result value) :
  failed (respond label r) -> error_only (respond label r).
Proof.
  destruct r as [v|e]; simpl; intros H.
  - by destruct (H v).
  - left. by eexists _, _.
Qed.

Lemma analyze_food_store E image meal_type st :
  (analyze_food E image meal_type st).2 = st
  ∧ (failed (analyze_food E image meal_type st).1 ->
     error_only (analyze_food E image meal_type st).1).
Proof.
  unfold analyze_food.
  destruct image as [name|]; [|split; [done|intros _; left; by eexists _, _]].
  case_bool_decide; [split; [done|intros _; left; by eexists _, _]|].
  destruct (allowed_file name); [|split; [done|intros _; left; by eexists _, _]].
  destruct (file_save E _); simpl.
  - split; [done|apply respond_failed_error_only].
  - split; [done|intros _; right; by eexists].
Qed.

Lemma reanalyze_food_store E data st :
  (reanalyze_food E data st).2 = st
  ∧ (failed (reanalyze_food E data st).1 -> error_only (reanalyze_food E data st).1).
Proof.
  unfold reanalyze_food.
  destruct data; simpl; try (split; [done|intros _; right; by eexists]).
  match goal with |- context [negb ?b] => destruct b end; simpl;
    [|split; [done|intros _; left; by eexists _, _]].
  match goal with |- context [from_option id VNone ?o] => destruct o as [[]|] end;
    simpl; try (split; [done|intros _; right; by eexists]).
  destruct (path_exists E _); simpl.
  - split; [done|apply respond_failed_error_only].
  - split; [done|intros _; left; by eexists _, _].
Qed.

(** C9. Whatever [analyze_food] or [reanalyze_food] is called with, the
    store afterwards is the store before; and when the call is not answered
    with status 200, the response holds an error message and no part of a
    result. *)
Theorem analysis_failure_leaves_store (E : env) (st st' : store) (resp : response)
    (image meal_type : option pystr) (data : value) :
  analyze_food E image meal_type st = (resp, st')
  ∨ reanalyze_food E data st = (resp, st') ->
  st' = st ∧ (failed resp -> error_only resp).
Proof.
  intros [H|H].
  - pose proof (analyze_food_store E image meal_type st) as [H1 H2].
    rewrite H in H1, H2. by simpl in *.
  - pose proof (reanalyze_food_store E data st) as [H1 H2].
    rewrite H in H1, H2. by simpl in *.
Qed.

Lemma analysis_failure_leaves_store_witness :
  [] = ([] : store)
  ∧ (failed (Reply 500 (error_body (str "Analysis failed: Expecting value")))
     -> error_only (Reply 500 (error_body (str "Analysis failed: Expecting value")))).
Proof.
  apply (analysis_failure_leaves_store (sample_env (str "an apple")) [] [] _
           (Some (str "apple.png")) None VNone).
  left. reflexivity.
Defined.

(** ** The store *)

Section Store.
Context {A : Type}.
Implicit Types (st : store) (r : DailyRecord) (date k : value) (body : upd A).

Lemma store_get_app_absent k st st2 :
  store_get k st = None -> store_get k (st ++ st2) = store_get k st2.
Proof.
  induction st as [|[k' r] st IH]; simpl; [done|].
  by destruct (key_eq k' k).
Qed.

Lemma store_get_None k st :
  store_get k st = None <-> ∀ k', k' ∈ st.*1 -> key_eq k' k = false.
Proof.
  induction st as [|[k' r] st IH]; simpl.
  - split; [|done]. by intros _ k' ?%elem_of_nil.
  - destruct (key_eq k' k) eqn:Hk.
    + split; [done|]. intros H. rewrite H in Hk; [done|]. by left.
    + rewrite IH. split.
      * intros H k'' [->|?]%elem_of_cons; auto.
      * intros H k'' ?. apply H. by right.
Qed.

Lemma at_key_app_absent date body st st2 :
  store_get date st = None ->
  at_key date body (st ++ st2)
  = ((at_key date body st2).1, st ++ (at_key date body st2).2).
Proof.
  induction st as [|[k r] st IH]; simpl.
  - intros _. by destruct (at_key date body st2).
  - destruct (key_eq k date); [done|]. intros H. by rewrite IH.
Qed.

(** The record filed under [date] afterwards is what [body] made of the
    one that was there, or of the zeroed one. *)
Lemma at_key_get date body st :
  key_eq date date = true ->
  (at_key date body st).1 = (body (default empty_record (store_get date st))).1
  ∧ store_get date (at_key date body st).2
    = Some (body (default empty_record (store_get date st))).2.
Proof.
  intros Hrefl. induction st as [|[k r] st [IH1 IH2]]; simpl.
  - destruct (body empty_record); simpl. by rewrite Hrefl.
  - destruct (key_eq k date) eqn:Hk; simpl.
    + destruct (body r); simpl. by rewrite Hk.
    + destruct (at_key date body st); simpl in *. by rewrite Hk.
Qed.

Lemma at_key_keys date body st :
  (at_key date body st).2.*1
  = st.*1 ++ match store_get date st with Some _ => [] | None => [date] end.
Proof.
  induction st as [|[k r] st IH]; simpl.
  - by destruct (body empty_record).
  - destruct (key_eq k date).
    + destruct (body r); simpl. by rewrite app_nil_r.
    + destruct (at_key date body st); simpl in *. f_equal. exact IH.
Qed.


End Store.

Lemma key_eq_str (k : value) (d : pystr) : key_eq k (VStr d) = true <-> k = VStr d.
Proof.
  destruct k as [| |[]| | |]; simpl; try (split; [done|by intros [=]]).
  - case_bool_decide; split; congruence.
Qed.

Lemma key_eq_str_refl (d : pystr) : key_eq (VStr d) (VStr d) = true.
Proof. by apply key_eq_str. Qed.

Lemma store_get_str_None (d : pystr) (st : store) :
  store_get (VStr d) st = None <-> VStr d ∉ st.*1.
Proof.
  rewrite store_get_None. split.
  - intros H Hin. apply H in Hin. by rewrite key_eq_str_refl in Hin.
  - intros H k Hk. destruct (key_eq k (VStr d)) eqn:E; [|done].
    apply key_eq_str in E as ->. done.
Qed.

(** ** What saving does to a record *)

Lemma record_meal_run (data : value) (r : DailyRecord) (t : nutrient -> pynum) :
  (∀ n, add_meal_total n (total n r) data = Ok (t n)) ->
  record_meal data r
  = (Ok (), {| meals := meals r ++ [data]; total_calories := t Calories;
               total_protein := t Protein; total_carbs := t Carbs;
               total_fat := t Fat; total_fiber := t Fiber |}).
Proof.
  intros H.
  pose proof (H Calories) as Hc. pose proof (H Protein) as Hp.
  pose proof (H Carbs) as Hb. pose proof (H Fat) as Hf. pose proof (H Fiber) as Hi.
  unfold record_meal, mbind, upd_bind, append_meal, add_total. simpl in *.
  rewrite Hc; simpl. rewrite Hp; simpl. rewrite Hb; simpl. rewrite Hf; simpl.
  by rewrite Hi.
Qed.


(** A save that raises has still appended the meal. *)
Lemma record_meal_appends (data : value) (r : DailyRecord) :
  meals (record_meal data r).2 = meals r ++ [data].
Proof.
  unfold record_meal, mbind, upd_bind, append_meal, add_total. simpl.
  repeat (match goal with |- context [add_meal_total ?n ?t data] =>
            destruct (add_meal_total n t data) end; simpl; try done).
Qed.

(** ** Rounding

    Rounding [m * 2 ^ e] to binary64, with [m] other than [0] and [e] no
    less than the least exponent [-1074], never gives a zero: the mantissa
    that is kept has its leading bit.  So [float(z)] is never [-0.0]. *)

Lemma digits2_pos_le (p : positive) : 2 ^ (Z.pos (digits2_pos p) - 1) <= Z.pos p.
Proof.
  induction p as [p IH|p IH|]; simpl digits2_pos; [| |done];
    rewrite Pos2Z.inj_succ;
    replace (Z.succ (Z.pos (digits2_pos p)) - 1)
      with (Z.succ (Z.pos (digits2_pos p) - 1)) by lia;
    rewrite Z.pow_succ_r by lia; lia.
Qed.

Lemma shr_1_le (mrs : shr_record) (j : Z) :
  0 <= j -> 2 ^ (1 + j) <= shr_m mrs -> 2 ^ j <= shr_m (shr_1 mrs).
Proof.
  intros Hj. rewrite Z.add_1_l, Z.pow_succ_r by done.
  pose proof (Z.pow_pos_nonneg 2 j) as Hp.
  destruct mrs as [[|[p|p|]|p] r s]; simpl; lia.
Qed.

Lemma iter_shr_1_le (k : positive) (mrs : shr_record) (j : Z) :
  0 <= j -> 2 ^ (Z.pos k + j) <= shr_m mrs ->
  2 ^ j <= shr_m (SpecFloat.iter_pos shr_1 k mrs).
Proof.
  revert mrs j.
  induction k as [k IH|k IH|]; intros mrs j Hj Hm; simpl SpecFloat.iter_pos.
  - apply IH; [done|]. apply IH; [lia|]. apply shr_1_le; [lia|].
    by replace (1 + (Z.pos k + (Z.pos k + j))) with (Z.pos k~1 + j) by lia.
  - apply IH; [done|]. apply IH; [lia|].
    by replace (Z.pos k + (Z.pos k + j)) with (Z.pos k~0 + j) by lia.
  - by apply shr_1_le.
Qed.

Lemma shr_m_of_loc (m : Z) (l : location) : shr_m (shr_record_of_loc m l) = m.
Proof. by destruct l as [|[]]. Qed.

Lemma shr_fexp_pos (m e : Z) (l : location) :
  0 < m -> -1074 <= e -> 0 < shr_m (shr_fexp 53 1024 m e l).1.
Proof.
  intros Hm He. unfold shr_fexp, shr.
  destruct (fexp 53 1024 (Zdigits2 m + e) - e) as [|k|k] eqn:Hn; simpl;
    rewrite ?shr_m_of_loc; try done.
  destruct m as [|p|p]; try done. simpl in Hn. unfold fexp, emin in Hn.
  pose proof (digits2_pos_le p) as Hd.
  assert (2 ^ 52 <= shr_m (SpecFloat.iter_pos shr_1 k (shr_record_of_loc (Z.pos p) l)));
    [|lia].
  apply iter_shr_1_le; [done|]. rewrite shr_m_of_loc.
  by replace (Z.pos k + 52) with (Z.pos (digits2_pos p) - 1) by lia.
Qed.

Lemma shr_fexp_exp (m e : Z) (l : location) : -1074 <= (shr_fexp 53 1024 m e l).2.
Proof.
  unfold shr_fexp, shr.
  destruct (fexp 53 1024 (Zdigits2 m + e) - e) as [|k|k] eqn:Hn; simpl;
    unfold fexp, emin in Hn; lia.
Qed.

Lemma round_nearest_even_pos (m : Z) (l : location) : 0 < m -> 0 < round_nearest_even m l.
Proof. intros Hm. destruct l as [|[]]; simpl; try done; [case_match|]; lia. Qed.

Lemma binary_round_aux_not_zero (s s' : bool) (m e : Z) (l : location) :
  0 < m -> -1074 <= e -> binary_round_aux 53 1024 s m e l ≠ S754_zero s'.
Proof.
  intros Hm He. unfold binary_round_aux.
  pose proof (shr_fexp_pos m e l Hm He) as H1.
  pose proof (shr_fexp_exp m e l) as E1.
  destruct (shr_fexp 53 1024 m e l) as [mrs' e']. simpl in H1, E1.
  pose proof (shr_fexp_pos _ e' loc_Exact
                (round_nearest_even_pos _ (loc_of_shr_record mrs') H1) E1) as H2.
  destruct (shr_fexp 53 1024 _ e' loc_Exact) as [mrs'' e'']. simpl in H2.
  destruct (shr_m mrs''); [lia| |lia]. by case_match.
Qed.

Lemma binary_round_not_zero (s s' : bool) (p : positive) (e : Z) :
  -1074 <= e -> binary_round 53 1024 s p e ≠ S754_zero s'.
Proof.
  intros He. unfold binary_round, shl_align.
  destruct (fexp 53 1024 (Z.pos (digits2_pos p) + e) - e) as [|k|k] eqn:Hn;
    apply binary_round_aux_not_zero; try done.
  unfold fexp, emin in *. lia.
Qed.

Lemma binary_normalize_not_neg_zero (z e : Z) :
  -1074 <= e -> binary_normalize 53 1024 z e false ≠ S754_zero true.
Proof.
  intros He. destruct z; simpl; [done|by apply binary_round_not_zero..].
Qed.

Lemma float_of_int_not_neg_zero (z : Z) (f : float) :
  float_of_int z = Ok f -> f ≠ S754_zero true.
Proof.
  unfold float_of_int. intros H ->.
  pose proof (binary_normalize_not_neg_zero z 0) as Hz.
  destruct (binary_normalize 53 1024 z 0 false) as [[]| | |]; try done.
  by apply Hz.
Qed.

(** ** Adding to a running total *)

(** [0 + a] is [a], but for [-0.0]. *)
Lemma py_add_0_l (a : pynum) :
  a = neg_zero ∧ py_add (PInt 0) a = Ok pos_zero
  ∨ a ≠ neg_zero ∧ py_add (PInt 0) a = Ok a.
Proof. destruct a as [z|[[]| | |]]; by (left + right). Qed.

(** A running total starts from the int [0]: what [(0 + a) + b] is when
    [a + b] is defined. *)
Lemma py_add_from_zero (a b c : pynum) :
  py_add a b = Ok c ->
  py_add (PInt 0) a = Ok (plus (PInt 0) a)
  ∧ py_add (plus (PInt 0) a) b = Ok (plus (plus (PInt 0) a) b)
  ∧ (¬ (a = neg_zero ∧ b = neg_zero) -> plus (plus (PInt 0) a) b = c)
  ∧ (a = neg_zero ∧ b = neg_zero ->
     plus (plus (PInt 0) a) b = pos_zero ∧ c = neg_zero
     ∧ num_compare (plus (plus (PInt 0) a) b) c = Some Eq).
Proof.
  intros Hc. destruct (py_add_0_l a) as [[-> H0]|[Hz H0]].
  - assert (plus (PInt 0) neg_zero = pos_zero) as -> by reflexivity.
    split; [done|]. destruct b as [y|g]; simpl in Hc.
    + destruct (float_of_int y) as [g|] eqn:Hg; [|done]. simpl in Hc.
      pose proof (float_of_int_not_neg_zero y g Hg) as Hg0.
      assert (py_add pos_zero (PInt y) = Ok c) as H.
      { simpl. rewrite Hg. simpl. rewrite <-Hc. by destruct g as [[]| | |]. }
      unfold plus. rewrite H. split; [done|]. split; [done|]. by intros [_ [=]].
    + assert (PFloat g ≠ neg_zero -> py_add pos_zero (PFloat g) = Ok c) as H.
      { intros Hg. rewrite <-Hc. by destruct g as [[]| | |]. }
      destruct g as [[]| | |]; simplify_eq;
        try (unfold plus; rewrite H by done; split; [done|]; split; [done|];
             by intros [_ [=]]).
      split; [done|]. split; [by intros []|done].
  - unfold plus. rewrite H0, Hc. split; [done|]. split; [done|]. split; [done|].
    by intros [? _].
Qed.



Lemma add_meal_total_present (n : nutrient) (t : pynum) (fields : dict) (v : value) :
  dict_get (field_name n) fields = Some v ->
  add_meal_total n t (VDict fields) = py_iadd t v.
Proof. intros H. unfold add_meal_total. simpl. by rewrite H. Qed.


(** ** [save_meal] *)

Lemma save_meal_filed (today : pystr) (data date : value) (st : store) :
  save_key today data = Some date ->
  save_meal today data st
  = match at_key date (record_meal data) st with
    | (Ok _, st') => (Reply 200 (saved date), st')
    | (Raise e, st') => (ServerError e, st')
    end.
Proof.
  unfold save_key, save_meal.
  destruct (py_get data _ _) as [date'|]; [|done].
  destruct (hashable date') eqn:Hh; [|done]. by intros [= ->].
Qed.

Lemma save_meal_not_filed (today : pystr) (data : value) (st : store) :
  save_key today data = None -> (save_meal today data st).2 = st.
Proof.
  unfold save_key, save_meal.
  destruct (py_get data _ _) as [date'|]; [|done].
  by destruct (hashable date').
Qed.

(** C1, as the code has it.  Two meals are saved under a date [d] that has
    no record yet; each carries its five totals as numbers, [a] and [b],
    and [c n] is [a n + b n].  Each call answers
    [{'success': True, 'date': d}], not the record.  The record of [d] then
    holds exactly the two meals in the order saved, and its total for each
    nutrient [n] is [c n]; only where both totals are the float [-0.0] is
    it [0.0] and not [-0.0], which [==] takes for the same number: the
    running sum starts from the int [0]. *)
Theorem save_twice (today d : pystr) (r1 r2 : dict) (st : store)
    (a b c : nutrient -> pynum) :
  store_get (VStr d) st = None ->
  save_key today (VDict r1) = Some (VStr d) ->
  save_key today (VDict r2) = Some (VStr d) ->
  (∀ n, dict_get (field_name n) r1 = Some (VNum (a n))) ->
  (∀ n, dict_get (field_name n) r2 = Some (VNum (b n))) ->
  (∀ n, py_add (a n) (b n) = Ok (c n)) ->
  ∃ st1 st2 r,
    save_meal today (VDict r1) st = (Reply 200 (saved (VStr d)), st1)
    ∧ save_meal today (VDict r2) st1 = (Reply 200 (saved (VStr d)), st2)
    ∧ store_get (VStr d) st2 = Some r
    ∧ meals r = [VDict r1; VDict r2]
    ∧ ∀ n, (¬ (a n = neg_zero ∧ b n = neg_zero) -> total n r = c n)
           ∧ (a n = neg_zero ∧ b n = neg_zero ->
              total n r = pos_zero ∧ c n = neg_zero
              ∧ num_compare (total n r) (c n) = Some Eq).
Proof.
  intros Hnew Hk1 Hk2 Ha Hb Hc.
  pose (a' := fun n => plus (PInt 0) (a n)).
  pose (t := fun n => plus (a' n) (b n)).
  set (R1 := {| meals := [VDict r1]; total_calories := a' Calories;
                total_protein := a' Protein; total_carbs := a' Carbs;
                total_fat := a' Fat; total_fiber := a' Fiber |}).
  set (R2 := {| meals := [VDict r1; VDict r2]; total_calories := t Calories;
                total_protein := t Protein; total_carbs := t Carbs;
                total_fat := t Fat; total_fiber := t Fiber |}).
  assert (record_meal (VDict r1) empty_record = (Ok (), R1)) as H1.
  { apply (record_meal_run (VDict r1) empty_record a'). intros n.
    rewrite (add_meal_total_present _ _ _ _ (Ha n)).
    replace (total n empty_record) with (PInt 0) by by destruct n.
    apply (py_add_from_zero _ _ _ (Hc n)). }
  assert (record_meal (VDict r2) R1 = (Ok (), R2)) as H2.
  { apply (record_meal_run (VDict r2) R1 t). intros n.
    rewrite (add_meal_total_present _ _ _ _ (Hb n)).
    replace (total n R1) with (a' n) by by destruct n.
    apply (py_add_from_zero _ _ _ (Hc n)). }
  exists (st ++ [(VStr d, R1)]), (st ++ [(VStr d, R2)]), R2.
  split; [|split; [|split; [|split; [done|]]]].
  - rewrite (save_meal_filed _ _ _ _ Hk1).
    rewrite <-(app_nil_r st) at 1. rewrite at_key_app_absent by done.
    simpl. rewrite H1. reflexivity.
  - rewrite (save_meal_filed _ _ _ _ Hk2).
    rewrite at_key_app_absent by done.
    simpl. rewrite bool_decide_eq_true_2 by done. rewrite H2. reflexivity.
  - rewrite store_get_app_absent by done. simpl.
    by rewrite bool_decide_eq_true_2.
  - intros n. replace (total n R2) with (t n) by by destruct n.
    by destruct (py_add_from_zero _ _ _ (Hc n)) as (_ & _ & H3 & H4).
Qed.

Lemma save_twice_witness :
  ∃ st1 st2 r,
    save_meal (str "2024-01-01") (VDict apple) [] = (Reply 200 (saved (VStr (str "2024-01-01"))), st1)
    ∧ save_meal (str "2024-01-01") (VDict toast) st1
      = (Reply 200 (saved (VStr (str "2024-01-01"))), st2)
    ∧ store_get (VStr (str "2024-01-01")) st2 = Some r
    ∧ meals r = [VDict apple; VDict toast]
    ∧ total Calories r = PInt 245
    ∧ total Protein r = plus (decimal 5 (-1)) (PInt 6)
    ∧ total Carbs r = plus (PInt 25) (decimal 275 (-1))
    ∧ total Fat r = plus (decimal 3 (-1)) (decimal 2 0)
    ∧ total Fiber r = plus (decimal 44 (-1)) (PInt 2).
Proof.
  destruct (save_twice (str "2024-01-01") (str "2024-01-01") apple toast []
              (totals_of apple) (totals_of toast)
              (fun n => plus (totals_of apple n) (totals_of toast n)))
    as (st1 & st2 & r & H1 & H2 & Hg & Hm & Ht);
    try reflexivity; try by intros [].
  exists st1, st2, r. repeat split; try done.
  - apply (Ht Calories). by intros [[=] _].
  - apply (Ht Protein). by intros [[=] _].
  - apply (Ht Carbs). by intros [[=] _].
  - apply (Ht Fat). by intros [[=] _].
  - apply (Ht Fiber). by intros [[=] _].
Defined.

(** C1 as stated fails: the call does not answer with the record. *)
Lemma save_does_not_return_record :
  let call := save_meal (str "2024-01-01") (VDict apple) [] in
  call.1 = Reply 200 (VDict [(str "success", VBool true);
                             (str "date", VStr (str "2024-01-01"))])
  ∧ store_get (VStr (str "2024-01-01")) call.2
    = Some {| meals := [VDict apple]; total_calories := PInt 95;
              total_protein := decimal 5 (-1); total_carbs := PInt 25;
              total_fat := decimal 3 (-1); total_fiber := decimal 44 (-1) |}
  ∧ ∀ r, store_get (VStr (str "2024-01-01")) call.2 = Some r ->
         call.1 ≠ Reply 200 (record_value r).
Proof.
  split; [reflexivity|]. split; [reflexivity|].
  intros r [= <-]. discriminate.
Qed.




(** ** The running totals and the meals *)




Lemma get_all_dates_store (st : store) : (get_all_dates st).2 = st.
Proof. unfold get_all_dates. by destruct (sorted_reverse _). Qed.





(** ** The order on strings *)

Ltac order_cases :=
  repeat match goal with
    | H : context [(?x <? ?y)%N] |- _ => destruct (N.ltb_spec x y); simpl in H
    | H : context [(?x =? ?y)%N] |- _ => destruct (N.eqb_spec x y); simpl in H
    | |- context [(?x <? ?y)%N] => destruct (N.ltb_spec x y); simpl
    | |- context [(?x =? ?y)%N] => destruct (N.eqb_spec x y); simpl
    end;
  subst; try lia; try done.

Lemma str_ltb_irrefl (a : pystr) : str_ltb a a = false.
Proof. induction a as [|x a IH]; simpl; [done|]. order_cases. Qed.

Lemma str_le_trans (a b c : pystr) : str_le a b -> str_le b c -> str_le a c.
Proof.
  unfold str_le. revert a b. induction c as [|z c IH]; intros a b Hba Hcb.
  - destruct b; [|done]. by destruct a.
  - destruct b as [|y b]; [by destruct a|]. destruct a as [|x a]; [done|].
    simpl in *. order_cases. by eapply IH.
Qed.

Lemma str_ltb_le (a b : pystr) : str_ltb a b = true -> str_le a b.
Proof.
  unfold str_le. revert b. induction a as [|x a IH]; intros [|y b]; simpl; try done.
  intros H. order_cases. by apply IH.
Qed.

Lemma str_le_antisym (a b : pystr) : str_le a b -> str_le b a -> a = b.
Proof.
  unfold str_le. revert b. induction a as [|x a IH]; intros [|y b]; simpl; try done.
  intros H1 H2. order_cases. f_equal. by apply IH.
Qed.

#[local] Instance str_le_transitive : Transitive str_le.
Proof. intros a b c. apply str_le_trans. Qed.

(** ** Sorting *)

Lemma str_insort_Permutation (x : pystr) (l : list pystr) : str_insort x l ≡ₚ x :: l.
Proof.
  induction l as [|y l IH]; simpl; [done|].
  destruct (str_ltb x y); [done|]. by rewrite IH, Permutation_swap.
Qed.

Lemma str_insort_sorted (x : pystr) (l : list pystr) :
  StronglySorted str_le l -> StronglySorted str_le (str_insort x l).
Proof.
  induction 1 as [|y l Hl IH Hy]; simpl; [by repeat constructor|].
  destruct (str_ltb x y) eqn:Hxy.
  - apply str_ltb_le in Hxy. constructor; [by constructor|].
    constructor; [done|]. eapply Forall_impl; [exact Hy|].
    intros z Hz. by etrans.
  - constructor; [done|]. rewrite str_insort_Permutation. by constructor.
Qed.

Lemma str_sort_asc_spec (l acc : list pystr) :
  StronglySorted str_le acc ->
  StronglySorted str_le (foldl (fun acc x => str_insort x acc) acc l)
  ∧ foldl (fun acc x => str_insort x acc) acc l ≡ₚ acc ++ l.
Proof.
  revert acc. induction l as [|x l IH]; intros acc Hacc; simpl.
  - by rewrite app_nil_r.
  - destruct (IH (str_insort x acc)) as [H1 H2]; [by apply str_insort_sorted|].
    split; [done|]. rewrite H2, str_insort_Permutation.
    apply Permutation_middle.
Qed.

Lemma insort_str (x : pystr) (l : list pystr) :
  insort (VStr x) (VStr <$> l) = Ok (VStr <$> str_insort x l).
Proof.
  induction l as [|y l IH]; csimpl; [done|].
  destruct (str_ltb x y); csimpl; [done|]. by rewrite IH.
Qed.

Lemma sort_asc_str (l : list pystr) :
  sort_asc (VStr <$> l) = Ok (VStr <$> str_sort_asc l).
Proof.
  unfold sort_asc, str_sort_asc. change (Ok []) with (Ok (VStr <$> [])).
  generalize (@nil pystr) as acc.
  induction l as [|x l IH]; intros acc; csimpl; [done|].
  rewrite insort_str. apply IH.
Qed.

Lemma sorted_reverse_str (l : list pystr) :
  sorted_reverse (VStr <$> l) = Ok (VStr <$> reverse (str_sort_asc (reverse l))).
Proof.
  unfold sorted_reverse. rewrite <-fmap_reverse, sort_asc_str. simpl.
  by rewrite fmap_reverse.
Qed.

Lemma insort_Permutation (x : value) (l l' : list value) :
  insort x l = Ok l' -> l' ≡ₚ x :: l.
Proof.
  revert l'. induction l as [|y l IH]; simpl; intros l'; [by intros [= <-]|].
  destruct (py_lt x y) as [[]|]; simpl; [by intros [= <-]| |done].
  destruct (insort x l) as [l''|]; simpl; [|done].
  intros [= <-]. by rewrite (IH l''), Permutation_swap.
Qed.

Lemma sort_asc_Permutation (l l' : list value) : sort_asc l = Ok l' -> l' ≡ₚ l.
Proof.
  unfold sort_asc.
  assert (∀ acc, foldl (fun acc x => acc ≫= insort x) (Ok acc) l = Ok l' ->
                 l' ≡ₚ acc ++ l) as H; [|apply (H [])].
  induction l as [|x l IH]; intros acc; simpl.
  - intros [= <-]. by rewrite app_nil_r.
  - destruct (insort x acc) as [acc'|e] eqn:Hx.
    + intros ->%IH. apply insort_Permutation in Hx.
      rewrite Hx. apply Permutation_middle.
    + intros H. exfalso. clear IH Hx. revert H.
      induction l as [|y l IH]; simpl; [done|apply IH].
Qed.

Lemma sorted_reverse_Permutation (l l' : list value) :
  sorted_reverse l = Ok l' -> l' ≡ₚ l.
Proof.
  unfold sorted_reverse. destruct (sort_asc (reverse l)) as [l''|] eqn:H; [|done].
  simpl. intros [= <-]. apply sort_asc_Permutation in H.
  by rewrite reverse_Permutation, H, reverse_Permutation.
Qed.

(** ** The keys of the store *)

Lemma store_get_Some_key (k : value) (st : store) (r : DailyRecord) :
  store_get k st = Some r -> ∃ k', k' ∈ st.*1 ∧ key_eq k' k = true.
Proof.
  induction st as [|[k' r'] st IH]; simpl; [done|].
  destruct (key_eq k' k) eqn:Hk.
  - intros _. exists k'. split; [by left|done].
  - intros (k'' & ? & ?)%IH. exists k''. split; [by right|done].
Qed.

Lemma save_meal_keys (today : pystr) (data : value) (st : store) :
  (save_meal today data st).2.*1
  = st.*1 ++ match save_key today data with
             | Some date => match store_get date st with Some _ => [] | None => [date] end
             | None => []
             end.
Proof.
  destruct (save_key today data) as [date|] eqn:Hk.
  - rewrite (save_meal_filed _ _ _ _ Hk).
    rewrite <-(at_key_keys date (record_meal data) st).
    by destruct (at_key date (record_meal data) st) as [[] ?].
  - by rewrite save_meal_not_filed, app_nil_r.
Qed.

Lemma run_snoc (ops : list op) (o : op) (st : store) :
  run (ops ++ [o]) st = (handle o (run ops st)).2.
Proof. unfold run. by rewrite foldl_snoc. Qed.

Lemma saved_keys_snoc (ops : list op) (o : op) :
  saved_keys (ops ++ [o])
  = saved_keys ops ++ match o with
                      | Save today data => option_list (save_key today data)
                      | _ => []
                      end.
Proof.
  unfold saved_keys. rewrite omap_app. f_equal. simpl.
  by destruct o.
Qed.

(** Every key of the store was filed by some save. *)
Lemma run_keys_saved (ops : list op) (k : value) :
  k ∈ (run ops []).*1 -> k ∈ saved_keys ops.
Proof.
  induction ops as [|o ops IH] using rev_ind; [by intros ?%elem_of_nil|].
  rewrite run_snoc, saved_keys_snoc, elem_of_app.
  destruct o as [today data|date|]; simpl.
  - rewrite save_meal_keys, elem_of_app. intros [?|Hk]; [by left; apply IH|].
    right. destruct (save_key today data) as [date|]; [|by apply elem_of_nil in Hk].
    by destruct (store_get date _); [apply elem_of_nil in Hk|].
  - intros ?. left. by apply IH.
  - rewrite get_all_dates_store. intros ?. left. by apply IH.
Qed.

(** When every save files under a string, the keys of the store are those
    strings, each once. *)
Lemma run_keys_str (ops : list op) :
  (∀ k, k ∈ saved_keys ops -> ∃ d, k = VStr d) ->
  NoDup (run ops []).*1 ∧ ∀ k, k ∈ (run ops []).*1 <-> k ∈ saved_keys ops.
Proof.
  induction ops as [|o ops IH] using rev_ind; intros Hstr.
  { split; [constructor|done]. }
  rewrite saved_keys_snoc in Hstr. rewrite run_snoc, saved_keys_snoc.
  destruct IH as [IH1 IH2].
  { intros k Hk. apply Hstr, elem_of_app. by left. }
  destruct o as [today data|date|]; simpl.
  - rewrite save_meal_keys.
    destruct (save_key today data) as [date|]; simpl;
      [|rewrite !app_nil_r; by split].
    destruct (Hstr date) as [d ->]; [apply elem_of_app; right; by left|].
    destruct (store_get (VStr d) (run ops [])) as [r|] eqn:Hd.
    + rewrite app_nil_r. split; [done|]. intros k. rewrite elem_of_app, IH2.
      split; [by left|]. intros [?| ->%list_elem_of_singleton]; [done|].
      apply store_get_Some_key in Hd as (k' & Hk' & ->%key_eq_str).
      by apply IH2.
    + apply store_get_str_None in Hd. split.
      * apply NoDup_app. split; [done|]. split; [|apply NoDup_singleton].
        by intros k Hk ->%list_elem_of_singleton.
      * intros k. by rewrite !elem_of_app, IH2.
  - rewrite app_nil_r. by split.
  - rewrite get_all_dates_store, app_nil_r. by split.
Qed.

Lemma all_str (l : list value) :
  (∀ k, k ∈ l -> ∃ d, k = VStr d) -> ∃ ds, l = VStr <$> ds.
Proof.
  induction l as [|k l IH]; intros H; [by exists []|].
  destruct (H k) as [d ->]; [by left|].
  destruct IH as [ds ->]; [intros k ?; apply H; by right|].
  by exists (d :: ds).
Qed.

Lemma VStr_inj : Inj (=) (=) VStr.
Proof. by intros a b [= ->]. Qed.

Lemma descending_strict (l : list pystr) :
  StronglySorted (flip str_le) l -> NoDup l ->
  StronglySorted (fun a b => str_ltb b a = true) l.
Proof.
  induction 1 as [|a l Hl IH Ha]; intros Hnd; [constructor|].
  apply NoDup_cons in Hnd as [Hnot Hnd]. constructor; [auto|].
  rewrite Forall_forall in Ha |- *. intros b Hb.
  destruct (str_ltb b a) eqn:Hba; [done|]. destruct Hnot.
  by rewrite (str_le_antisym a b Hba (Ha b Hb)).
Qed.

(** ** Reading the store *)

(** C6. When no save was ever filed under [d], [get_daily_data d] answers
    with no meals and zero totals and leaves the store as it was, with no
    record for [d]; and the dates listed afterwards do not include [d]. *)
Theorem get_of_unsaved_date (ops : list op) (d : pystr) :
  VStr d ∉ saved_keys ops ->
  let st := run ops [] in
  get_daily_data d st
  = (Reply 200
       (VDict [(str "meals", VList []);
               (str "total_calories", VNum (PInt 0));
               (str "total_protein", VNum (PInt 0));
               (str "total_carbs", VNum (PInt 0));
               (str "total_fat", VNum (PInt 0));
               (str "total_fiber", VNum (PInt 0))]), st)
  ∧ store_get (VStr d) (get_daily_data d st).2 = None
  ∧ ∀ dates,
      (get_all_dates (get_daily_data d st).2).1 = Reply 200 (VList dates) ->
      VStr d ∉ dates.
Proof.
  intros Hd st.
  assert (VStr d ∉ st.*1) as Hkeys by (intros ?%run_keys_saved; done).
  assert (store_get (VStr d) st = None) as Hget by by apply store_get_str_None.
  split; [|split].
  - unfold get_daily_data. by rewrite Hget.
  - done.
  - simpl. unfold get_all_dates. intros dates.
    destruct (sorted_reverse st.*1) as [l|] eqn:Hl; [|done].
    simpl. intros [= <-]. apply sorted_reverse_Permutation in Hl.
    by rewrite Hl.
Qed.

Lemma get_of_unsaved_date_witness :
  let st := run [Save (str "2024-01-01") (VDict apple)] [] in
  get_daily_data (str "2024-01-02") st
  = (Reply 200
       (VDict [(str "meals", VList []);
               (str "total_calories", VNum (PInt 0));
               (str "total_protein", VNum (PInt 0));
               (str "total_carbs", VNum (PInt 0));
               (str "total_fat", VNum (PInt 0));
               (str "total_fiber", VNum (PInt 0))]), st)
  ∧ store_get (VStr (str "2024-01-02")) (get_daily_data (str "2024-01-02") st).2 = None
  ∧ ∀ dates,
      (get_all_dates (get_daily_data (str "2024-01-02") st).2).1 = Reply 200 (VList dates) ->
      VStr (str "2024-01-02") ∉ dates.
Proof.
  apply (get_of_unsaved_date [Save (str "2024-01-01") (VDict apple)] (str "2024-01-02")).
  intros [[=]|[]%elem_of_nil]%elem_of_cons.
Defined.

(** C7. When every save files under a string, [get_all_dates] answers with
    exactly the dates some save was filed under, each once, in strictly
    descending order of code points; and after saves under 2024-01-01,
    2024-03-15 and 2024-02-10 it answers 2024-03-15, 2024-02-10,
    2024-01-01. *)
Theorem list_dates_sorted :
  (∀ ops,
     (∀ k, k ∈ saved_keys ops -> ∃ d, k = VStr d) ->
     ∃ dates,
       get_all_dates (run ops []) = (Reply 200 (VList (VStr <$> dates)), run ops [])
       ∧ (∀ d, d ∈ dates <-> VStr d ∈ saved_keys ops)
       ∧ StronglySorted (fun a b => str_ltb b a = true) dates)
  ∧ (get_all_dates
       (run [Save (str "2024-06-30") (VDict (sample_meal "2024-01-01" (PInt 1) (PInt 0) (PInt 0) (PInt 0) (PInt 0)));
             Save (str "2024-06-30") (VDict (sample_meal "2024-03-15" (PInt 2) (PInt 0) (PInt 0) (PInt 0) (PInt 0)));
             Save (str "2024-06-30") (VDict (sample_meal "2024-02-10" (PInt 3) (PInt 0) (PInt 0) (PInt 0) (PInt 0)))]
          [])).1
    = Reply 200 (VList [VStr (str "2024-03-15"); VStr (str "2024-02-10");
                        VStr (str "2024-01-01")]).
Proof.
  split; [|reflexivity].
  intros ops Hstr. destruct (run_keys_str ops Hstr) as [Hnd Hkeys].
  destruct (all_str (run ops []).*1) as [ds Hds].
  { intros k Hk. by apply Hstr, Hkeys. }
  exists (reverse (str_sort_asc (reverse ds))).
  assert (reverse (str_sort_asc (reverse ds)) ≡ₚ ds) as Hperm.
  { rewrite reverse_Permutation.
    rewrite (proj2 (str_sort_asc_spec (reverse ds) [] (SSorted_nil _))).
    simpl. apply reverse_Permutation. }
  split; [|split].
  - unfold get_all_dates. by rewrite Hds, sorted_reverse_str.
  - intros d. rewrite Hperm, <-Hkeys, Hds.
    by rewrite (list_elem_of_fmap_inj VStr (Inj0 := VStr_inj)).
  - apply descending_strict.
    + apply Sorted_StronglySorted; [apply _|]. apply Sorted_reverse.
      apply StronglySorted_Sorted.
      apply (str_sort_asc_spec (reverse ds) [] (SSorted_nil _)).
    + rewrite Hperm. rewrite Hds in Hnd. by apply NoDup_fmap_1 in Hnd.
Qed.

Lemma list_dates_sorted_witness :
  ∃ dates,
    get_all_dates (run [Save (str "2024-01-01") (VDict apple)] [])
    = (Reply 200 (VList (VStr <$> dates)), run [Save (str "2024-01-01") (VDict apple)] [])
    ∧ (∀ d, d ∈ dates <-> VStr d ∈ saved_keys [Save (str "2024-01-01") (VDict apple)])
    ∧ StronglySorted (fun a b => str_ltb b a = true) dates.
Proof.
  apply (proj1 list_dates_sorted [Save (str "2024-01-01") (VDict apple)]).
  intros k [->|[]%elem_of_nil]%elem_of_cons. by eexists.
Defined.

(** * Further facts *)

(** ** File names *)

Lemma after_last_None (c : N) (s : pystr) : after_last c s = None <-> c ∉ s.
Proof.
  induction s as [|x s IH]; simpl.
  - split; [intros _; apply not_elem_of_nil|done].
  - rewrite not_elem_of_cons. destruct (after_last c s) as [t|].
    + split; [done|]. intros [_ H]. by apply IH in H.
    + destruct (N.eqb_spec x c) as [->|Hx].
      * split; [done|]. by intros [? _].
      * split; [|done]. intros _. split; [done|]. by apply IH.
Qed.

Lemma after_last_Some (c : N) (s t : pystr) :
  after_last c s = Some t <-> ∃ stem, s = stem ++ c :: t ∧ c ∉ t.
Proof.
  revert t. induction s as [|x s IH]; intros t; simpl.
  - split; [done|]. by intros ([|??] & ? & _).
  - destruct (after_last c s) as [t'|] eqn:Hs.
    + split.
      * intros [= ->]. destruct (proj1 (IH t) eq_refl) as (stem & -> & Ht).
        by exists (x :: stem).
      * intros (stem & Heq & Ht).
        destruct stem as [|y stem]; simplify_eq/=.
        -- apply after_last_None in Ht. congruence.
        -- apply IH. eauto.
    + apply after_last_None in Hs. destruct (N.eqb_spec x c) as [->|Hx].
      * split.
        -- intros [= ->]. by exists [].
        -- intros (stem & Heq & Ht). destruct stem as [|y stem]; simplify_eq/=; [done|].
           destruct Hs. apply elem_of_app. right. by left.
      * split; [done|]. intros (stem & Heq & Ht).
        destruct stem as [|y stem]; simplify_eq/=.
        destruct Hs. apply elem_of_app. right. by left.
Qed.

(** X1. A file name is allowed exactly when it has a dot and what follows
    its last dot is, once ASCII letters are lowered, one of png, jpg, jpeg
    and webp. *)
Theorem allowed_file_iff (filename : pystr) :
  allowed_file filename = true
  <-> ∃ stem ext,
        filename = stem ++ [46%N] ++ ext
        ∧ (46%N ∉ ext)
        ∧ ascii_lower ext ∈ ALLOWED_EXTENSIONS.
Proof.
  unfold allowed_file. destruct (after_last 46 filename) as [ext|] eqn:H.
  - apply after_last_Some in H as H'. destruct H' as (stem & -> & Hext).
    rewrite bool_decide_eq_true. split.
    + intros Hin. by exists stem, ext.
    + intros (stem' & ext' & Heq & Hext' & Hin).
      assert (after_last 46 (stem' ++ [46%N] ++ ext') = Some ext') as H'
        by (apply after_last_Some; eauto).
      rewrite <-Heq, H in H'. by simplify_eq.
  - split; [done|]. intros (stem & ext & -> & _ & _).
    apply after_last_None in H. destruct H. apply elem_of_app. right. by left.
Qed.

(** X2. [analyze_food] answers with status 400 exactly when the request has
    no image part, or the part has an empty file name, or the name is not
    allowed; no outside call can produce or prevent a 400. *)
Theorem analyze_food_400_iff (E : env) (image meal_type : option pystr) (st : store) :
  (∃ body, (analyze_food E image meal_type st).1 = Reply 400 body)
  <-> image = None ∨ image = Some [] ∨ ∃ name, image = Some name ∧ allowed_file name = false.
Proof.
  unfold analyze_food. destruct image as [name|]; [|split; [by left|by eexists]].
  case_bool_decide as Hname; [subst; split; [by right; left|by eexists]|].
  destruct (allowed_file name) eqn:Hok.
  - split.
    + intros [body H]. destruct (file_save E _); [|done].
      simpl in H. by destruct (analysis _ _ _ _ _).
    + intros [?|[?|(? & ? & ?)]]; simplify_eq. congruence.
  - split; [|by eexists]. intros _. right. right. by exists name.
Qed.

(** ** Paths *)

Lemma basename_no_slash (p : pystr) : 47%N ∉ basename p.
Proof.
  unfold basename. destruct (after_last 47 p) as [t|] eqn:H; simpl.
  - by apply after_last_Some in H as (? & _ & ?).
  - by apply after_last_None.
Qed.

Lemma path_join_uploads (f : pystr) :
  47%N ∉ f -> path_join UPLOAD_FOLDER f = upload_path f.
Proof.
  intros Hf. unfold path_join.
  destruct f as [|c f]; [done|].
  assert (startswith (c :: f) (str "/") = (47 =? c)%N) as ->
    by (change (str "/") with [47%N]; cbn [startswith]; apply andb_true_r).
  destruct (N.eqb_spec 47 c) as [<-|?]; [|done].
  destruct Hf. by left.
Qed.

(** ** The analysis handlers, when they get through *)

Lemma dict_get_stamped_image_path fields image_url meal_type timestamp :
  dict_get (str "image_path") (stamped fields image_url meal_type timestamp)
  = Some (VStr image_url).
Proof. unfold stamped. rewrite !dict_get_set. by repeat case_decide. Qed.

Lemma dict_get_stamped_meal_type fields image_url meal_type timestamp :
  dict_get (str "meal_type") (stamped fields image_url meal_type timestamp)
  = Some meal_type.
Proof. unfold stamped. rewrite !dict_get_set. by repeat case_decide. Qed.

Lemma dict_get_stamped_timestamp fields image_url meal_type timestamp :
  dict_get (str "timestamp") (stamped fields image_url meal_type timestamp)
  = Some (VStr timestamp).
Proof. unfold stamped. rewrite !dict_get_set. by repeat case_decide. Qed.

Lemma analysis_Ok (E : env) (p : prompt) (filepath filename text : pystr)
    (meal_type : value) (fields : dict) :
  image_open E filepath = Ok () ->
  generate_text E p filepath = Ok text ->
  extract E text = Ok (VDict fields) ->
  analysis E p filepath filename meal_type
  = Ok (VDict (stamped fields (upload_url E filename) meal_type (now_iso E))).
Proof.
  intros Ho Hg He. unfold analysis. rewrite Ho, Hg. simpl. by rewrite He.
Qed.

(** X3. When the upload is stored, the image opens, the model answers and
    its reply decodes to an object, [analyze_food] answers 200 with that
    object, in which [image_path] is the URL of the stored file,
    [meal_type] is the form's value or [snack] when the form has none, and
    [timestamp] is the current time; these three replace whatever the model
    put under the same names, and every other key is as the model gave it. *)
Theorem analyze_food_stamps (E : env) (name text : pystr) (meal_type : option pystr)
    (fields : dict) (st : store) :
  let filename := secure_filename E (now_stamp E ++ str "_" ++ name) in
  let filepath := path_join UPLOAD_FOLDER filename in
  name ≠ [] ->
  allowed_file name = true ->
  file_save E filepath = Ok () ->
  image_open E filepath = Ok () ->
  generate_text E AnalyzePrompt filepath = Ok text ->
  extract E text = Ok (VDict fields) ->
  ∃ body,
    analyze_food E (Some name) meal_type st = (Reply 200 (VDict body), st)
    ∧ dict_get (str "image_path") body = Some (VStr (upload_url E filename))
    ∧ dict_get (str "meal_type") body = Some (VStr (default (str "snack") meal_type))
    ∧ dict_get (str "timestamp") body = Some (VStr (now_iso E))
    ∧ ∀ k, k ≠ str "image_path" -> k ≠ str "meal_type" -> k ≠ str "timestamp" ->
           dict_get k body = dict_get k fields.
Proof.
  intros filename filepath Hname Hok Hsave Hopen Hgen Hext.
  eexists. split; [|split; [|split; [|split]]].
  - unfold analyze_food. rewrite bool_decide_eq_false_2 by done.
    rewrite Hok. fold filename. fold filepath. rewrite Hsave.
    by rewrite (analysis_Ok _ _ _ _ _ _ _ Hopen Hgen Hext).
  - apply dict_get_stamped_image_path.
  - apply dict_get_stamped_meal_type.
  - apply dict_get_stamped_timestamp.
  - intros k ???. by apply dict_get_stamped.
Qed.

Lemma analyze_food_stamps_witness :
  ∃ body,
    analyze_food (sample_env (json_text "{'meal_type': 'feast', 'total_calories': 95}"))
      (Some (str "apple.PNG")) None []
    = (Reply 200 (VDict body), [])
    ∧ dict_get (str "image_path") body
      = Some (VStr (upload_url (sample_env []) (str "20240101_120000_apple.PNG")))
    ∧ dict_get (str "meal_type") body = Some (VStr (str "snack"))
    ∧ dict_get (str "timestamp") body = Some (VStr (str "2024-01-01T12:00:00"))
    ∧ ∀ k, k ≠ str "image_path" -> k ≠ str "meal_type" -> k ≠ str "timestamp" ->
           dict_get k body
           = dict_get k [(str "meal_type", VStr (str "feast"));
                         (str "total_calories", VNum (PInt 95))].
Proof.
  apply (analyze_food_stamps
           (sample_env (json_text "{'meal_type': 'feast', 'total_calories': 95}"))
           (str "apple.PNG") (json_text "{'meal_type': 'feast', 'total_calories': 95}")
           None [(str "meal_type", VStr (str "feast")); (str "total_calories", VNum (PInt 95))]
           []); done.
Defined.

(** X4. When the model's reply decodes to something that is not an object
    (a list, a string, a number, [null]), the first stamp raises a
    [TypeError], and the handler answers 500 with that error's message
    after its label. *)
Theorem analysis_of_non_object (E : env) (p : prompt) (filepath filename text label : pystr)
    (meal_type v : value) :
  image_open E filepath = Ok () ->
  generate_text E p filepath = Ok text ->
  extract E text = Ok v ->
  (∀ fields, v ≠ VDict fields) ->
  respond label (analysis E p filepath filename meal_type)
  = Reply 500 (error_body (label ++ exn_str (TypeError_setitem v))).
Proof.
  intros Ho Hg He Hv. unfold analysis. rewrite Ho, Hg. simpl. rewrite He. simpl.
  destruct v; try done. by destruct (Hv fields).
Qed.

Lemma analysis_of_non_object_witness :
  respond (str "Analysis failed: ")
    (analysis (sample_env (str "[1, 2]")) AnalyzePrompt (str "uploads/a.png") (str "a.png")
       (VStr (str "snack")))
  = Reply 500
      (error_body (str "Analysis failed: list indices must be integers or slices, not str")).
Proof.
  apply (analysis_of_non_object (sample_env (str "[1, 2]")) AnalyzePrompt
           (str "uploads/a.png") (str "a.png") (str "[1, 2]") (str "Analysis failed: ")
           (VStr (str "snack")) (VList [VNum (PInt 1); VNum (PInt 2)])); done.
Defined.

Lemma reanalyze_food_str (E : env) (fields : dict) (p : pystr) (st : store) :
  dict_get (str "image_path") fields = Some (VStr p) -> p ≠ [] ->
  reanalyze_food E (VDict fields) st
  = (if path_exists E (upload_path (basename p)) then
       respond (str "Reanalysis failed: ")
         (analysis E
            (ReanalyzePrompt (from_option id (VStr []) (dict_get (str "modifications") fields)))
            (upload_path (basename p)) (basename p)
            (from_option id (VStr (str "snack")) (dict_get (str "meal_type") fields)))
     else Reply 404 (error_body (str "Image not found")), st).
Proof.
  intros Hp Hne. unfold reanalyze_food. simpl. rewrite Hp. simpl.
  rewrite bool_decide_eq_false_2 by done. simpl.
  rewrite path_join_uploads by apply basename_no_slash.
  by destruct (path_exists E _).
Qed.

(** X5. Whatever directories or URL the given [image_path] leads through,
    [reanalyze_food] looks at one file only: the one kept under [uploads/]
    by the name that follows the last slash of [image_path] (the whole of
    it when it has no slash).  That name has no slash. *)
Theorem reanalyze_food_stays_in_uploads (E : env) (fields : dict) (p : pystr) (st : store) :
  dict_get (str "image_path") fields = Some (VStr p) -> p ≠ [] ->
  (47%N ∉ basename p)
  ∧ (∀ dir f, p = dir ++ [47%N] ++ f -> 47%N ∉ f -> basename p = f)
  ∧ reanalyze_food E (VDict fields) st
    = (if path_exists E (upload_path (basename p)) then
         respond (str "Reanalysis failed: ")
           (analysis E
              (ReanalyzePrompt (from_option id (VStr []) (dict_get (str "modifications") fields)))
              (upload_path (basename p)) (basename p)
              (from_option id (VStr (str "snack")) (dict_get (str "meal_type") fields)))
       else Reply 404 (error_body (str "Image not found")), st).
Proof.
  intros Hp Hne. split; [apply basename_no_slash|]. split; [|by apply reanalyze_food_str].
  intros dir f -> Hf. unfold basename.
  by rewrite (proj2 (after_last_Some 47 (dir ++ [47%N] ++ f) f)) by eauto.
Qed.

Lemma reanalyze_food_stays_in_uploads_witness :
  (47%N ∉ basename (str "../../etc/passwd"))
  ∧ (∀ dir f, str "../../etc/passwd" = dir ++ [47%N] ++ f -> 47%N ∉ f ->
              basename (str "../../etc/passwd") = f)
  ∧ reanalyze_food (sample_env []) (VDict [(str "image_path", VStr (str "../../etc/passwd"))]) []
    = (if path_exists (sample_env []) (upload_path (basename (str "../../etc/passwd"))) then
         respond (str "Reanalysis failed: ")
           (analysis (sample_env [])
              (ReanalyzePrompt
                 (from_option id (VStr [])
                    (dict_get (str "modifications")
                       [(str "image_path", VStr (str "../../etc/passwd"))])))
              (upload_path (basename (str "../../etc/passwd")))
              (basename (str "../../etc/passwd"))
              (from_option id (VStr (str "snack"))
                 (dict_get (str "meal_type")
                    [(str "image_path", VStr (str "../../etc/passwd"))])))
       else Reply 404 (error_body (str "Image not found")), []).
Proof.
  apply (reanalyze_food_stays_in_uploads (sample_env [])
           [(str "image_path", VStr (str "../../etc/passwd"))] (str "../../etc/passwd") []);
    done.
Defined.

Lemma reanalyze_food_response (E : env) (fields : dict) (st : store) :
  (reanalyze_food E (VDict fields) st).1
  = let ip := from_option id VNone (dict_get (str "image_path") fields) in
    if truthy ip then
      match ip with
      | VStr p =>
          if path_exists E (upload_path (basename p)) then
            respond (str "Reanalysis failed: ")
              (analysis E
                 (ReanalyzePrompt
                    (from_option id (VStr []) (dict_get (str "modifications") fields)))
                 (upload_path (basename p)) (basename p)
                 (from_option id (VStr (str "snack")) (dict_get (str "meal_type") fields)))
          else Reply 404 (error_body (str "Image not found"))
      | _ => ServerError (TypeError_path ip)
      end
    else Reply 400 (error_body (str "No image path provided")).
Proof.
  unfold reanalyze_food. simpl.
  destruct (from_option id VNone (dict_get (str "image_path") fields))
    as [|b|n|p|l|d] eqn:Hip; simpl.
  - done.
  - by destruct b.
  - destruct n as [z|[]]; simpl; try done. by destruct (z =? 0).
  - case_bool_decide; simpl; [done|].
    rewrite path_join_uploads by apply basename_no_slash.
    by destruct (path_exists E _).
  - by destruct l.
  - by destruct d.
Qed.

Lemma respond_status (label : pystr) (r : result value) (status : N) (body : value) :
  respond label r = Reply status body -> status = 200%N ∨ status = 500%N.
Proof. destruct r; intros [= <- _]; auto. Qed.

(** X6. [reanalyze_food] answers 400 exactly when the body is an object
    whose [image_path] is absent or falsy ([null], [false], [0], an empty
    string, list or object), and 404 exactly when [image_path] is a
    non-empty string and no file of that base name is in the upload
    folder. *)
Theorem reanalyze_food_4xx (E : env) (data : value) (st : store) :
  ((∃ body, (reanalyze_food E data st).1 = Reply 400 body)
   <-> ∃ fields, data = VDict fields
                 ∧ truthy (from_option id VNone (dict_get (str "image_path") fields)) = false)
  ∧ ((∃ body, (reanalyze_food E data st).1 = Reply 404 body)
     <-> ∃ fields p, data = VDict fields
                     ∧ dict_get (str "image_path") fields = Some (VStr p)
                     ∧ p ≠ []
                     ∧ path_exists E (upload_path (basename p)) = false).
Proof.
  split; split.
  - intros [body H]. destruct data as [| | | | |fields]; try done.
    exists fields. split; [done|]. rewrite reanalyze_food_response in H. simpl in H.
    destruct (truthy _) eqn:Ht; [|done].
    destruct (from_option id VNone _); try done.
    destruct (path_exists E _); [|done].
    apply respond_status in H as [?|?]; done.
  - intros (fields & -> & Ht). rewrite reanalyze_food_response. simpl.
    rewrite Ht. by eexists.
  - intros [body H]. destruct data as [| | | | |fields]; try done.
    rewrite reanalyze_food_response in H. simpl in H.
    destruct (truthy _) eqn:Ht; [|done].
    destruct (dict_get (str "image_path") fields) as [[| | |p| |]|] eqn:Hp; try done.
    simpl in *. destruct (path_exists E _) eqn:Hex.
    + apply respond_status in H as [?|?]; done.
    + exists fields, p. repeat split; try done. intros ->. done.
  - intros (fields & p & -> & Hp & Hne & Hex). rewrite reanalyze_food_response. simpl.
    rewrite Hp. simpl. rewrite bool_decide_eq_false_2 by done. simpl.
    rewrite Hex. by eexists.
Qed.

(** X7. Reanalysing an image under the [image_path] that names it gives
    back the same [image_path]: when [image_path] is the URL of the file
    of its own base name, that file is there, the model answers and the
    reply decodes to an object, [reanalyze_food] answers 200 with that
    object, stamped with the very [image_path] it was given, the
    [meal_type] of the request ([snack] when absent) and the current time. *)
Theorem reanalyze_food_keeps_image_path (E : env) (fields out : dict) (p text : pystr)
    (st : store) :
  let name := basename p in
  let modifications := from_option id (VStr []) (dict_get (str "modifications") fields) in
  let meal_type := from_option id (VStr (str "snack")) (dict_get (str "meal_type") fields) in
  dict_get (str "image_path") fields = Some (VStr p) ->
  p ≠ [] ->
  upload_url E name = p ->
  path_exists E (upload_path name) = true ->
  image_open E (upload_path name) = Ok () ->
  generate_text E (ReanalyzePrompt modifications) (upload_path name) = Ok text ->
  extract E text = Ok (VDict out) ->
  ∃ body,
    reanalyze_food E (VDict fields) st = (Reply 200 (VDict body), st)
    ∧ dict_get (str "image_path") body = Some (VStr p)
    ∧ dict_get (str "meal_type") body = Some meal_type
    ∧ dict_get (str "timestamp") body = Some (VStr (now_iso E))
    ∧ ∀ k, k ≠ str "image_path" -> k ≠ str "meal_type" -> k ≠ str "timestamp" ->
           dict_get k body = dict_get k out.
Proof.
  intros name modifications meal_type Hp Hne Hurl Hex Hopen Hgen Hext.
  eexists. split; [|split; [|split; [|split]]].
  - rewrite (reanalyze_food_str E fields p st Hp Hne). fold name. rewrite Hex.
    fold modifications meal_type.
    by rewrite (analysis_Ok _ _ _ _ _ _ _ Hopen Hgen Hext).
  - rewrite dict_get_stamped_image_path. by rewrite Hurl.
  - apply dict_get_stamped_meal_type.
  - apply dict_get_stamped_timestamp.
  - intros k ???. by apply dict_get_stamped.
Qed.

Lemma reanalyze_food_keeps_image_path_witness :
  ∃ body,
    reanalyze_food (sample_env (json_text "{'total_calories': 120}"))
      (VDict [(str "image_path", VStr (str "http://localhost:5000/uploads/a.png"));
              (str "modifications", VStr (str "with butter"))]) []
    = (Reply 200 (VDict body), [])
    ∧ dict_get (str "image_path") body
      = Some (VStr (str "http://localhost:5000/uploads/a.png"))
    ∧ dict_get (str "meal_type") body = Some (VStr (str "snack"))
    ∧ dict_get (str "timestamp") body = Some (VStr (str "2024-01-01T12:00:00"))
    ∧ ∀ k, k ≠ str "image_path" -> k ≠ str "meal_type" -> k ≠ str "timestamp" ->
           dict_get k body = dict_get k [(str "total_calories", VNum (PInt 120))].
Proof.
  apply (reanalyze_food_keeps_image_path (sample_env (json_text "{'total_calories': 120}"))
           [(str "image_path", VStr (str "http://localhost:5000/uploads/a.png"));
            (str "modifications", VStr (str "with butter"))]
           [(str "total_calories", VNum (PInt 120))]
           (str "http://localhost:5000/uploads/a.png")
           (json_text "{'total_calories': 120}") []); done.
Defined.

(** ** Where a saved meal is kept *)

Lemma save_meal_store (today : pystr) (data date : value) (st : store) :
  save_key today data = Some date ->
  (save_meal today data st).2 = (at_key date (record_meal data) st).2.
Proof.
  intros Hk. rewrite (save_meal_filed _ _ _ _ Hk).
  by destruct (at_key date (record_meal data) st) as [[] ?].
Qed.

Lemma save_meal_get (today d : pystr) (data : value) (st : store) :
  save_key today data = Some (VStr d) ->
  ∃ r', store_get (VStr d) (save_meal today data st).2 = Some r'
        ∧ meals r' = meals (default empty_record (store_get (VStr d) st)) ++ [data].
Proof.
  intros Hk. rewrite (save_meal_store _ _ _ _ Hk).
  destruct (at_key_get (VStr d) (record_meal data) st (key_eq_str_refl d)) as [_ Hg].
  eexists. split; [exact Hg|]. apply record_meal_appends.
Qed.

(** X8. A meal filed under the date [d] is kept under [d]: after
    [save_meal], whether it answered with success or raised while adding
    the totals, [calorie_data.get(d)] is a record whose meals are the
    earlier ones followed by the meal just sent. *)
Theorem save_then_get (today d : pystr) (data : value) (st : store) :
  save_key today data = Some (VStr d) ->
  ∃ r',
    store_get (VStr d) (save_meal today data st).2 = Some r'
    ∧ meals r' = meals (default empty_record (store_get (VStr d) st)) ++ [data].
Proof. apply save_meal_get. Qed.

Lemma save_then_get_witness :
  ∃ r',
    store_get (VStr (str "2024-01-01")) (save_meal (str "2024-06-30") (VDict apple) []).2
    = Some r'
    ∧ meals r'
      = meals (default empty_record (store_get (VStr (str "2024-01-01")) [])) ++ [VDict apple].
Proof.
  apply (save_then_get (str "2024-06-30") (str "2024-01-01") (VDict apple) []). done.
Defined.

(** X9. A meal sent without a [date] is filed under the day of the
    request: it is then the last of the meals that [calorie_data] holds for
    that day. *)
Theorem save_without_date (today : pystr) (fields : dict) (st : store) :
  dict_get (str "date") fields = None ->
  ∃ r',
    store_get (VStr today) (save_meal today (VDict fields) st).2 = Some r'
    ∧ meals r' = meals (default empty_record (store_get (VStr today) st)) ++ [VDict fields].
Proof.
  intros Hd. apply save_meal_get. unfold save_key. simpl. by rewrite Hd.
Qed.

Lemma save_without_date_witness :
  ∃ r',
    store_get (VStr (str "2024-06-30"))
      (save_meal (str "2024-06-30") (VDict [(str "total_calories", VNum (PInt 95))]) []).2
    = Some r'
    ∧ meals r'
      = meals (default empty_record (store_get (VStr (str "2024-06-30")) []))
        ++ [VDict [(str "total_calories", VNum (PInt 95))]].
Proof.
  apply (save_without_date (str "2024-06-30") [(str "total_calories", VNum (PInt 95))] []).
  done.
Defined.

(** X10. A body that is not an object, or whose [date] is a list or an
    object, makes [save_meal] raise before it touches the store: the
    request fails and the store is as it was. *)
Theorem save_meal_rejected (today : pystr) (data : value) (st : store) :
  (∀ fields, data ≠ VDict fields)
  ∨ (∃ fields date, data = VDict fields
                    ∧ dict_get (str "date") fields = Some date
                    ∧ hashable date = false) ->
  ∃ e, save_meal today data st = (ServerError e, st).
Proof.
  intros [Hd|(fields & date & -> & Hdate & Hh)]; unfold save_meal.
  - destruct data; try by eexists. by destruct (Hd fields).
  - simpl. rewrite Hdate. simpl. rewrite Hh. by eexists.
Qed.

Lemma save_meal_rejected_witness :
  ∃ e, save_meal (str "2024-06-30")
         (VDict [(str "date", VList [VStr (str "2024-06-30")])])
         [(VStr (str "2024-01-01"), empty_record)]
       = (ServerError e, [(VStr (str "2024-01-01"), empty_record)]).
Proof.
  apply save_meal_rejected. right. by eexists _, _.
Defined.

(** ** A save that raises half way *)

Ltac in_list := by repeat constructor.
Ltac not_in_list H :=
  repeat (apply elem_of_cons in H as [?|H]; [done|]); by apply elem_of_nil in H.

Lemma record_meal_partial (data : value) (r0 : DailyRecord)
    (before after : list nutrient) (n0 : nutrient) (e : exn) :
  nutrients = before ++ n0 :: after ->
  (∀ n, n ∈ before -> ∃ t, add_meal_total n (total n r0) data = Ok t) ->
  add_meal_total n0 (total n0 r0) data = Raise e ->
  ∃ r',
    record_meal data r0 = (Raise e, r')
    ∧ meals r' = meals r0 ++ [data]
    ∧ (∀ n, n ∈ before -> add_meal_total n (total n r0) data = Ok (total n r'))
    ∧ (∀ n, n ∈ n0 :: after -> total n r' = total n r0).
Proof.
  intros Hn Hb He. unfold nutrients in Hn.
  destruct before as [|b1 [|b2 [|b3 [|b4 [|b5 ?]]]]]; simplify_eq/=.
  - unfold record_meal, mbind, upd_bind, append_meal, add_total. simpl. rewrite He.
    eexists. split; [done|]. split; [done|]. split; [by intros n ?%elem_of_nil|].
    by intros [].
  - destruct (Hb Calories) as [tc Hc]; [in_list|].
    unfold record_meal, mbind, upd_bind, append_meal, add_total. simpl in *.
    rewrite Hc. simpl. rewrite He.
    eexists. split; [done|]. split; [done|]. split.
    + by intros n ->%list_elem_of_singleton.
    + intros [] Hin; try done; not_in_list Hin.
  - destruct (Hb Calories) as [tc Hc]; [in_list|].
    destruct (Hb Protein) as [tp Hp]; [in_list|].
    unfold record_meal, mbind, upd_bind, append_meal, add_total. simpl in *.
    rewrite Hc. simpl. rewrite Hp. simpl. rewrite He.
    eexists. split; [done|]. split; [done|]. split.
    + intros [] Hin; try done; not_in_list Hin.
    + intros [] Hin; try done; not_in_list Hin.
  - destruct (Hb Calories) as [tc Hc]; [in_list|].
    destruct (Hb Protein) as [tp Hp]; [in_list|].
    destruct (Hb Carbs) as [tb Hcb]; [in_list|].
    unfold record_meal, mbind, upd_bind, append_meal, add_total. simpl in *.
    rewrite Hc. simpl. rewrite Hp. simpl. rewrite Hcb. simpl. rewrite He.
    eexists. split; [done|]. split; [done|]. split.
    + intros [] Hin; try done; not_in_list Hin.
    + intros [] Hin; try done; not_in_list Hin.
  - destruct (Hb Calories) as [tc Hc]; [in_list|].
    destruct (Hb Protein) as [tp Hp]; [in_list|].
    destruct (Hb Carbs) as [tb Hcb]; [in_list|].
    destruct (Hb Fat) as [tf Hf]; [in_list|].
    unfold record_meal, mbind, upd_bind, append_meal, add_total. simpl in *.
    rewrite Hc. simpl. rewrite Hp. simpl. rewrite Hcb. simpl. rewrite Hf. simpl.
    rewrite He.
    eexists. split; [done|]. split; [done|]. split.
    + intros [] Hin; try done; not_in_list Hin.
    + intros [] Hin; try done; not_in_list Hin.
  - by destruct l.
Qed.

(** X11. When one total of a meal cannot be added (it is not a number, or
    the sum leaves the range of floats), [save_meal] raises, yet the store
    has changed: the meal is appended to the meals of its date, the totals
    that come before the failing one in the order calories, protein, carbs,
    fat, fiber are added, and the failing one and those after it are as
    they were. *)
Theorem save_meal_partial (today d : pystr) (data : value) (st : store)
    (before after : list nutrient) (n0 : nutrient) (e : exn) :
  let r0 := default empty_record (store_get (VStr d) st) in
  save_key today data = Some (VStr d) ->
  nutrients = before ++ n0 :: after ->
  (∀ n, n ∈ before -> ∃ t, add_meal_total n (total n r0) data = Ok t) ->
  add_meal_total n0 (total n0 r0) data = Raise e ->
  ∃ st' r',
    save_meal today data st = (ServerError e, st')
    ∧ store_get (VStr d) st' = Some r'
    ∧ meals r' = meals r0 ++ [data]
    ∧ (∀ n, n ∈ before -> add_meal_total n (total n r0) data = Ok (total n r'))
    ∧ (∀ n, n ∈ n0 :: after -> total n r' = total n r0).
Proof.
  intros r0 Hk Hn Hb He.
  destruct (record_meal_partial data r0 before after n0 e Hn Hb He)
    as (r' & Hrun & Hm & Hbefore & Hafter).
  destruct (at_key_get (VStr d) (record_meal data) st (key_eq_str_refl d)) as [Ha Hg].
  fold r0 in Ha, Hg. rewrite Hrun in Ha, Hg. simpl in Ha, Hg.
  eexists _, r'. split; [|by split].
  rewrite (save_meal_filed _ _ _ _ Hk).
  destruct (at_key _ _ st) as [res st']. simpl in Ha. by rewrite Ha.
Qed.

Lemma save_meal_partial_witness :
  ∃ st' r',
    save_meal (str "2024-06-30")
      (VDict [(str "total_calories", VNum (PInt 95));
              (str "total_protein", VStr (str "a lot"));
              (str "total_carbs", VNum (PInt 25))]) []
    = (ServerError (TypeError_operand (VNum (PInt 0)) (VStr (str "a lot"))), st')
    ∧ store_get (VStr (str "2024-06-30")) st' = Some r'
    ∧ meals r'
      = meals (default empty_record (store_get (VStr (str "2024-06-30")) []))
        ++ [VDict [(str "total_calories", VNum (PInt 95));
                   (str "total_protein", VStr (str "a lot"));
                   (str "total_carbs", VNum (PInt 25))]]
    ∧ (∀ n, n ∈ [Calories] ->
            add_meal_total n
              (total n (default empty_record (store_get (VStr (str "2024-06-30")) [])))
              (VDict [(str "total_calories", VNum (PInt 95));
                      (str "total_protein", VStr (str "a lot"));
                      (str "total_carbs", VNum (PInt 25))])
            = Ok (total n r'))
    ∧ (∀ n, n ∈ [Protein; Carbs; Fat; Fiber] ->
            total n r'
            = total n (default empty_record (store_get (VStr (str "2024-06-30")) []))).
Proof.
  apply (save_meal_partial (str "2024-06-30") (str "2024-06-30")
           (VDict [(str "total_calories", VNum (PInt 95));
                   (str "total_protein", VStr (str "a lot"));
                   (str "total_carbs", VNum (PInt 25))]) []
           [Calories] [Carbs; Fat; Fiber] Protein).
  - reflexivity.
  - reflexivity.
  - intros n ->%list_elem_of_singleton. by eexists.
  - reflexivity.
Defined.

(** ** What a save leaves alone *)

Lemma key_eq_str_l (k : value) (d : pystr) : key_eq (VStr d) k = true <-> k = VStr d.
Proof.
  destruct k as [| |[]|s| |]; simpl; try (split; [done|by intros [=]]).
  case_bool_decide; split; congruence.
Qed.

Lemma at_key_other {A} (date : value) (body : upd A) (d' : pystr) (st : store) :
  date ≠ VStr d' ->
  store_get (VStr d') (at_key date body st).2 = store_get (VStr d') st.
Proof.
  intros Hne. induction st as [|[k r] st IH]; simpl.
  - destruct (body empty_record) as [a r']. simpl.
    destruct (key_eq date (VStr d')) eqn:Hk; [|done].
    by apply key_eq_str in Hk.
  - destruct (key_eq k date) eqn:Hkd.
    + destruct (body r) as [a r']. simpl.
      destruct (key_eq k (VStr d')) eqn:Hk; [|done].
      apply key_eq_str in Hk as ->. by apply key_eq_str_l in Hkd.
    + destruct (at_key date body st) as [a st']. simpl in *. by rewrite IH.
Qed.

Lemma save_meal_frame (today d' : pystr) (data : value) (st : store) :
  save_key today data ≠ Some (VStr d') ->
  store_get (VStr d') (save_meal today data st).2 = store_get (VStr d') st.
Proof.
  intros Hk. destruct (save_key today data) as [date|] eqn:Hkey.
  - rewrite (save_meal_store _ _ _ _ Hkey). apply at_key_other. congruence.
  - by rewrite save_meal_not_filed.
Qed.

(** X12. A save touches the record of one date only: whatever the request
    and whether or not it succeeds, the record of every date other than
    the one the meal is filed under is afterwards what it was before. *)
Theorem save_meal_other_dates (today d' : pystr) (data : value) (st : store) :
  save_key today data ≠ Some (VStr d') ->
  store_get (VStr d') (save_meal today data st).2 = store_get (VStr d') st.
Proof. apply save_meal_frame. Qed.

Lemma save_meal_other_dates_witness :
  store_get (VStr (str "2024-01-01"))
    (save_meal (str "2024-06-30") (VDict [(str "total_calories", VNum (PInt 95))])
       [(VStr (str "2024-01-01"), empty_record)]).2
  = store_get (VStr (str "2024-01-01")) [(VStr (str "2024-01-01"), empty_record)].
Proof.
  apply (save_meal_other_dates (str "2024-06-30") (str "2024-01-01")). done.
Defined.

(** X13. Records are never removed and their meals only grow: a date that
    has a record keeps one through any further requests, and the meals it
    had stay, in the same order, at the front of the meals it has
    afterwards. *)
Theorem meals_only_grow (ops : list op) (st : store) (d : pystr) (r : DailyRecord) :
  store_get (VStr d) st = Some r ->
  ∃ r', store_get (VStr d) (run ops st) = Some r' ∧ meals r `prefix_of` meals r'.
Proof.
  revert st r. induction ops as [|o ops IH]; intros st r Hr; simpl.
  { by exists r. }
  assert (∃ r1, store_get (VStr d) (handle o st).2 = Some r1
                ∧ meals r `prefix_of` meals r1) as (r1 & Hr1 & Hpre).
  { destruct o as [today data|date|]; simpl.
    - assert (save_key today data = Some (VStr d) ∨ save_key today data ≠ Some (VStr d))
        as [Hk|Hk].
      { destruct (save_key today data) as [[| | |s| |]|]; try by right.
        destruct (decide (s = d)) as [->|]; [by left|right; congruence]. }
      + destruct (save_meal_get today d data st Hk) as (r' & Hg & Hm).
        exists r'. split; [done|]. rewrite Hm, Hr. simpl. by apply prefix_app_r.
      + exists r. by rewrite save_meal_frame.
    - by exists r.
    - exists r. by rewrite get_all_dates_store. }
  destruct (IH _ _ Hr1) as (r' & Hr' & Hpre'). exists r'. split; [done|].
  by etrans.
Qed.

Lemma meals_only_grow_witness :
  ∃ r', store_get (VStr (str "2024-01-01"))
          (run [Save (str "2024-01-01") (VDict toast); ListDates]
             [(VStr (str "2024-01-01"), add_meal (VDict apple) empty_record)]) = Some r'
        ∧ meals (add_meal (VDict apple) empty_record) `prefix_of` meals r'.
Proof.
  apply (meals_only_grow _ _ (str "2024-01-01")). done.
Defined.

(** ** Integer totals *)

Lemma int_sum_snoc (n : nutrient) (ms : list value) (m : value) :
  int_sum n (ms ++ [m]) = int_sum n ms + default 0 (int_total n m).
Proof.
  unfold int_sum. induction ms as [|m' ms IH]; simpl; [lia|].
  rewrite IH. lia.
Qed.

Lemma add_meal_total_int (n : nutrient) (s z : Z) (m : value) :
  int_total n m = Some z -> add_meal_total n (PInt s) m = Ok (PInt (s + z)).
Proof.
  unfold int_total, add_meal_total. destruct m as [| | | | |fields]; try done. simpl.
  destruct (dict_get (field_name n) fields) as [[|b|[z'|]| | |]|]; simpl; try done.
  - by intros [= <-].
  - by intros [= <-].
  - by intros [= <-].
Qed.

Lemma record_meal_int (data : value) (r : DailyRecord) :
  int_meal data -> int_record r ->
  ∃ r', record_meal data r = (Ok (), r') ∧ int_record r'.
Proof.
  intros Hdata Hr. eexists. split.
  - apply (record_meal_run data r
             (fun n => PInt (int_sum n (meals r) + default 0 (int_total n data)))).
    intros n. rewrite (Hr n). destruct (Hdata n) as [z Hz]. rewrite Hz. simpl.
    by apply add_meal_total_int.
  - intros n. simpl. rewrite int_sum_snoc. by destruct n.
Qed.

Lemma at_key_int (date : value) (data : value) (st : store) :
  int_meal data ->
  Forall (fun kr => int_record kr.2) st ->
  (at_key date (record_meal data) st).1 = Ok ()
  ∧ Forall (fun kr => int_record kr.2) (at_key date (record_meal data) st).2.
Proof.
  intros Hdata. induction 1 as [|[k r] st Hr Hst [IH1 IH2]]; simpl.
  - destruct (record_meal_int data empty_record Hdata) as (r' & -> & Hr'); [by intros []|].
    simpl. split; [done|]. by repeat constructor.
  - destruct (key_eq k date).
    + destruct (record_meal_int data r Hdata Hr) as (r' & -> & Hr').
      simpl. split; [done|]. by constructor.
    + destruct (at_key date (record_meal data) st) as [a st']. simpl in *.
      split; [done|]. by constructor.
Qed.

Lemma int_meal_dict (data : value) : int_meal data -> ∃ fields, data = VDict fields.
Proof.
  intros H. destruct (H Calories) as [z Hz]. destruct data; try done. by eexists.
Qed.

Lemma run_int (ops : list op) (st : store) :
  (∀ today data, Save today data ∈ ops -> int_meal data) ->
  Forall (fun kr => int_record kr.2) st ->
  Forall (fun kr => int_record kr.2) (run ops st).
Proof.
  revert st. induction ops as [|o ops IH]; intros st Hops Hst; simpl; [done|].
  apply IH; [intros today data Hin; apply (Hops today data); by right|].
  destruct o as [today data|date|]; simpl.
  - destruct (save_key today data) as [date|] eqn:Hk.
    + rewrite (save_meal_store _ _ _ _ Hk). apply at_key_int; [|done].
      apply (Hops today). by left.
    + by rewrite save_meal_not_filed.
  - done.
  - by rewrite get_all_dates_store.
Qed.

(** X14. As long as every meal saved carries only integer totals (each of
    the five absent, an [int] or a [bool]), the running totals are exact:
    in the state reached, each total of each record is the integer sum of
    that total over the meals of the record, and one more such meal, filed
    under any date that can be a key, is saved with success. *)
Theorem integer_totals_exact (ops : list op) :
  (∀ today data, Save today data ∈ ops -> int_meal data) ->
  (∀ k r n, (k, r) ∈ run ops [] -> total n r = PInt (int_sum n (meals r)))
  ∧ (∀ today data date,
       int_meal data -> save_key today data = Some date ->
       (save_meal today data (run ops [])).1 = Reply 200 (saved date)).
Proof.
  intros Hops.
  assert (Forall (fun kr => int_record kr.2) (run ops [])) as Hst
    by (apply run_int; [done|constructor]).
  split.
  - intros k r n Hin. rewrite Forall_forall in Hst. apply (Hst _ Hin).
  - intros today data date Hdata Hk. rewrite (save_meal_filed _ _ _ _ Hk).
    destruct (at_key_int date data (run ops []) Hdata Hst) as [Ha _].
    destruct (at_key date (record_meal data) (run ops [])) as [res st'].
    simpl in Ha. by rewrite Ha.
Qed.

Lemma integer_totals_exact_witness :
  (∀ k r n,
     (k, r) ∈ run [Save (str "2024-06-30") (VDict [(str "total_calories", VNum (PInt 95))]);
                   Save (str "2024-06-30") (VDict [(str "total_calories", VNum (PInt 150));
                                                   (str "total_fat", VBool true)])] [] ->
     total n r = PInt (int_sum n (meals r)))
  ∧ (∀ today data date,
       int_meal data -> save_key today data = Some date ->
       (save_meal today data
          (run [Save (str "2024-06-30") (VDict [(str "total_calories", VNum (PInt 95))]);
                Save (str "2024-06-30") (VDict [(str "total_calories", VNum (PInt 150));
                                                (str "total_fat", VBool true)])] [])).1
       = Reply 200 (saved date)).
Proof.
  apply integer_totals_exact.
  intros today data Hin.
  apply elem_of_cons in Hin as [Hin|Hin]; [injection Hin as -> ->; by intros []|].
  apply elem_of_cons in Hin as [Hin|Hin]; [injection Hin as -> ->; by intros []|].
  by apply elem_of_nil in Hin.
Defined.

(** ** Listing dates of different kinds *)

Lemma is_str_not_num (v : value) : is_str v = true -> is_num v = true -> False.
Proof. by destruct v. Qed.

Lemma py_lt_Ok_kind (x y : value) (b : bool) :
  py_lt x y = Ok b ->
  (is_str x = true ∧ is_str y = true) ∨ (is_num x = true ∧ is_num y = true).
Proof.
  unfold py_lt, is_num.
  destruct x as [| | |s| |], y as [| | |t| |]; simpl; try done; auto.
Qed.

Lemma py_lt_Raise (x y : value) (e : exn) :
  py_lt x y = Raise e -> e = TypeError_compare x y.
Proof.
  unfold py_lt.
  destruct x as [| | |s| |], y as [| | |t| |]; simpl; try done; by intros [= <-].
Qed.

#[local] Instance one_kind_Permutation : Proper ((≡ₚ) ==> iff) one_kind.
Proof.
  intros l1 l2 H. unfold one_kind. by rewrite H.
Qed.

Lemma insort_kind (x : value) (l l' : list value) :
  insort x l = Ok l' -> one_kind l -> one_kind l'.
Proof.
  intros Hins Hl. pose proof (insort_Permutation _ _ _ Hins) as Hperm.
  rewrite Hperm. destruct l as [|y l0].
  { right. right. simpl. lia. }
  simpl in Hins. destruct (py_lt x y) as [b|] eqn:Hlt; [|done].
  apply py_lt_Ok_kind in Hlt as [[Hx Hy]|[Hx Hy]];
    destruct Hl as [Hl|[Hl|Hl]].
  - left. by constructor.
  - apply Forall_cons in Hl as [Hy' _]. destruct (is_str_not_num y Hy Hy').
  - destruct l0; [|simpl in Hl; lia]. left. by repeat constructor.
  - apply Forall_cons in Hl as [Hy' _]. destruct (is_str_not_num y Hy' Hy).
  - right. left. by constructor.
  - destruct l0; [|simpl in Hl; lia]. right. left. by repeat constructor.
Qed.

Lemma insort_Raise (x : value) (l : list value) (e : exn) :
  insort x l = Raise e -> ∃ a b, e = TypeError_compare a b.
Proof.
  induction l as [|y l IH]; simpl; [done|].
  destruct (py_lt x y) as [[]|] eqn:Hlt; simpl; [done| |].
  - destruct (insort x l); simpl; [done|]. intros [= <-]. by apply IH.
  - intros [= <-]. apply py_lt_Raise in Hlt. by eexists _, _.
Qed.

Lemma sort_asc_kind (l : list value) :
  match sort_asc l with
  | Ok l' => one_kind l
  | Raise e => ∃ a b, e = TypeError_compare a b
  end.
Proof.
  unfold sort_asc.
  assert (∀ acc,
            one_kind acc ->
            match foldl (fun acc x => acc ≫= insort x) (Ok acc) l with
            | Ok l' => one_kind l'
            | Raise e => ∃ a b, e = TypeError_compare a b
            end) as H.
  { induction l as [|x l IH]; intros acc Hacc; simpl; [done|].
    destruct (insort x acc) as [acc'|e] eqn:Hx.
    - apply IH. by eapply insort_kind.
    - apply insort_Raise in Hx.
      assert (foldl (fun acc x => acc ≫= insort x) (Raise e) l = Raise e) as ->; [|done].
      clear. by induction l. }
  specialize (H [] ltac:(right; right; simpl; lia)).
  destruct (foldl _ _ l) as [l'|e] eqn:Hl; [|done].
  apply (sort_asc_Permutation l l') in Hl. by rewrite <-Hl.
Qed.

Lemma sorted_reverse_kind (l : list value) :
  match sorted_reverse l with
  | Ok l' => one_kind l
  | Raise e => ∃ a b, e = TypeError_compare a b
  end.
Proof.
  unfold sorted_reverse. pose proof (sort_asc_kind (reverse l)) as H.
  destruct (sort_asc (reverse l)); simpl; [|done].
  by rewrite reverse_Permutation in H.
Qed.

Lemma mixed_not_one_kind (l : list value) (d : pystr) (k : value) :
  VStr d ∈ l -> k ∈ l -> is_str k = false -> ¬ one_kind l.
Proof.
  intros Hd Hk Hstr [H|[H|H]].
  - rewrite Forall_forall in H. apply H in Hk. congruence.
  - rewrite Forall_forall in H. by apply H in Hd.
  - destruct l as [|x [|y l]]; [by apply elem_of_nil in Hd| |simpl in H; lia].
    apply list_elem_of_singleton in Hd, Hk. subst. by simplify_eq.
Qed.

Lemma handle_keys_kept (o : op) (st : store) (k : value) :
  k ∈ st.*1 -> k ∈ (handle o st).2.*1.
Proof.
  destruct o as [today data|date|]; simpl.
  - rewrite save_meal_keys, elem_of_app. by left.
  - done.
  - by rewrite get_all_dates_store.
Qed.

(** Every key a save was filed under has an equal key in the store. *)
Lemma run_keys_present (ops : list op) (k : value) :
  k ∈ saved_keys ops ->
  ∃ k', k' ∈ (run ops []).*1 ∧ (k' = k ∨ key_eq k' k = true).
Proof.
  induction ops as [|o ops IH] using rev_ind; [by intros ?%elem_of_nil|].
  rewrite run_snoc, saved_keys_snoc, elem_of_app. intros [Hk|Hk].
  - destruct (IH Hk) as (k' & Hin & Heq). exists k'. split; [|done].
    by apply handle_keys_kept.
  - destruct o as [today data|date|]; try by apply elem_of_nil in Hk.
    simpl. rewrite save_meal_keys.
    destruct (save_key today data) as [date|]; [|by apply elem_of_nil in Hk].
    apply list_elem_of_singleton in Hk as ->.
    destruct (store_get date (run ops [])) as [r|] eqn:Hget.
    + apply store_get_Some_key in Hget as (k' & Hin & Heq).
      exists k'. split; [|by right]. apply elem_of_app. by left.
    + exists date. split; [|by left]. apply elem_of_app. right. by left.
Qed.

(** X15. Once a meal has been filed under a string and another under a
    date that is not a string (a number, [true], [false] or [null]),
    [get_all_dates] no longer answers: sorting the keys compares a string
    with the other kind and raises a [TypeError]. *)
Theorem get_all_dates_mixed (ops : list op) (d : pystr) (k : value) :
  VStr d ∈ saved_keys ops ->
  k ∈ saved_keys ops ->
  is_str k = false ->
  ∃ a b, get_all_dates (run ops []) = (ServerError (TypeError_compare a b), run ops []).
Proof.
  intros Hd Hk Hstr.
  destruct (run_keys_present ops (VStr d) Hd) as (kd & Hind & Hkd).
  assert (kd = VStr d) as -> by (destruct Hkd as [?|?%key_eq_str]; done).
  destruct (run_keys_present ops k Hk) as (k' & Hin' & Hk').
  assert (is_str k' = false) as Hstr'.
  { destruct Hk' as [->|Heq]; [done|]. destruct k' as [| | |s| |]; try done.
    apply key_eq_str_l in Heq as ->. done. }
  unfold get_all_dates. pose proof (sorted_reverse_kind (run ops []).*1) as H.
  destruct (sorted_reverse (run ops []).*1) as [l|e].
  - by destruct (mixed_not_one_kind _ _ _ Hind Hin' Hstr').
  - destruct H as (a & b & ->). by eexists _, _.
Qed.

Lemma get_all_dates_mixed_witness :
  ∃ a b,
    get_all_dates
      (run [Save (str "2024-06-30") (VDict [(str "date", VStr (str "2024-01-01"))]);
            Save (str "2024-06-30") (VDict [(str "date", VNum (PInt 20240102))])] [])
    = (ServerError (TypeError_compare a b),
       run [Save (str "2024-06-30") (VDict [(str "date", VStr (str "2024-01-01"))]);
            Save (str "2024-06-30") (VDict [(str "date", VNum (PInt 20240102))])] []).
Proof.
  apply (get_all_dates_mixed _ (str "2024-01-01") (VNum (PInt 20240102))).
  - by left.
  - right. by left.
  - done.
Defined.

(** ** More on stripping *)

Section MoreStripping.
Implicit Types s w m : pystr.

Lemma lstrip_app_nonspace l c r :
  is_space c = false -> lstrip (l ++ c :: r) = lstrip l ++ c :: r.
Proof.
  intros Hc. induction l as [|x l IH]; simpl; [by rewrite Hc|].
  by destruct (is_space x).
Qed.

Lemma rstrip_app_nonspace a c m :
  is_space c = false -> rstrip (a ++ c :: m) = a ++ c :: rstrip m.
Proof.
  intros Hc. unfold rstrip.
  rewrite reverse_app, reverse_cons, <-app_assoc. simpl.
  rewrite lstrip_app_nonspace by done.
  rewrite reverse_app, reverse_cons, reverse_involutive.
  by rewrite <-app_assoc.
Qed.

Lemma lstrip_idem s : lstrip (lstrip s) = lstrip s.
Proof.
  induction s as [|c s IH]; simpl; [done|].
  destruct (is_space c) eqn:Hc; [done|]. simpl. by rewrite Hc.
Qed.

Lemma rstrip_idem s : rstrip (rstrip s) = rstrip s.
Proof. unfold rstrip. by rewrite reverse_involutive, lstrip_idem. Qed.

Lemma blank_or_not s :
  blank s ∨ ∃ w c r, s = w ++ c :: r ∧ blank w ∧ is_space c = false.
Proof.
  induction s as [|x s [IH|(w & c & r & -> & Hw & Hc)]].
  - left. constructor.
  - destruct (is_space x) eqn:Hx.
    + left. by constructor.
    + right. exists [], x, s. by repeat split; [constructor|].
  - destruct (is_space x) eqn:Hx.
    + right. exists (x :: w), c, r. by repeat split; [constructor|].
    + right. exists [], x, (w ++ c :: r). by repeat split; [constructor|].
Qed.

Lemma lstrip_rstrip s : lstrip (rstrip s) = rstrip (lstrip s).
Proof.
  destruct (blank_or_not s) as [Hs|(w & c & r & -> & Hw & Hc)].
  - by rewrite (rstrip_blank s), (lstrip_blank s).
  - rewrite rstrip_app_nonspace by done.
    rewrite !lstrip_blank_app by done. simpl. rewrite Hc.
    symmetry. apply (rstrip_app_nonspace [] c r Hc).
Qed.

Lemma strip_idem s : strip (strip s) = strip s.
Proof.
  unfold strip. by rewrite lstrip_rstrip, lstrip_idem, rstrip_idem.
Qed.

Lemma strip_rstrip s : strip (rstrip s) = strip s.
Proof. unfold strip. by rewrite lstrip_rstrip, rstrip_idem. Qed.

End MoreStripping.

(** X16. A reply that, once stripped, neither starts with the opening
    marker nor ends with three backticks is handed to [json.loads] stripped
    and otherwise untouched. *)
Theorem clean_text_plain (text : pystr) :
  startswith (strip text) fence_open = false ->
  endswith (strip text) fence_close = false ->
  clean_text text = strip text.
Proof.
  intros H1 H2. unfold clean_text. rewrite H1, H2. apply strip_idem.
Qed.

Lemma clean_text_plain_witness :
  clean_text (str "  {} " ++ [10%N]) = strip (str "  {} " ++ [10%N]).
Proof. apply clean_text_plain; done. Defined.

(** X17. The text handed to [json.loads] never has white space at either
    end: stripping it again changes nothing. *)
Theorem clean_text_stripped (text : pystr) : strip (clean_text text) = clean_text text.
Proof. unfold clean_text. apply strip_idem. Qed.

(** X18. A fence that is opened with the marker and never closed is
    unwrapped all the same: the text handed to [json.loads] is the stripped
    text after the marker. *)
Theorem clean_text_open_only (w1 m : pystr) :
  blank w1 ->
  endswith (rstrip m) fence_close = false ->
  clean_text (w1 ++ fence_open ++ m) = strip m.
Proof.
  intros Hw Hm. unfold clean_text.
  assert (strip (w1 ++ fence_open ++ m) = fence_open ++ rstrip m) as ->.
  { unfold strip. rewrite lstrip_blank_app by done.
    change (lstrip (fence_open ++ m)) with (fence_open ++ m).
    change (fence_open ++ m) with (str "```jso" ++ 110%N :: m).
    by rewrite rstrip_app_nonspace. }
  rewrite startswith_app.
  change (slice_from 7 (fence_open ++ rstrip m)) with (rstrip m).
  rewrite Hm. apply strip_rstrip.
Qed.

Lemma clean_text_open_only_witness :
  clean_text ([10%N] ++ fence_open ++ (str " {} " ++ [10%N])) = strip (str " {} " ++ [10%N]).
Proof. apply clean_text_open_only; [by repeat constructor|done]. Defined.

Lemma startswith_json_app (m : pystr) :
  startswith m (str "json") = false ->
  startswith (m ++ fence_close) (str "json") = false.
Proof.
  change (str "json") with [106%N; 115%N; 111%N; 110%N]. unfold fence_close.
  change (str "```") with [96%N; 96%N; 96%N].
  destruct m as [|a [|b [|c [|d m]]]]; simpl; try done; intros _;
    repeat (match goal with
            | |- context [(?x =? ?y)%N] => destruct (x =? y)%N; simpl; try done
            end).
Qed.

(** X19. A fence without the language tag is not unwrapped: when the
    three opening backticks are not followed by [json], only the closing
    backticks go, and the text handed to [json.loads] still starts with
    three backticks. *)
Theorem clean_text_untagged_fence (w1 m w2 : pystr) :
  blank w1 -> blank w2 ->
  startswith m (str "json") = false ->
  clean_text (w1 ++ fence_close ++ m ++ fence_close ++ w2) = fence_close ++ rstrip m.
Proof.
  intros H1 H2 Hm. unfold clean_text.
  assert (strip (w1 ++ fence_close ++ m ++ fence_close ++ w2)
          = fence_close ++ m ++ fence_close) as ->.
  { unfold strip. rewrite lstrip_blank_app by done.
    change (lstrip (fence_close ++ m ++ fence_close ++ w2))
      with (fence_close ++ m ++ fence_close ++ w2).
    replace (fence_close ++ m ++ fence_close ++ w2)
      with (((fence_close ++ m ++ str "``") ++ [96%N]) ++ w2)
      by (by rewrite <-!app_assoc).
    rewrite rstrip_app_blank, rstrip_snoc by done.
    by rewrite <-!app_assoc. }
  assert (startswith (fence_close ++ m ++ fence_close) fence_open = false) as ->.
  { apply startswith_json_app in Hm. revert Hm.
    change fence_open with ([96%N; 96%N; 96%N] ++ str "json").
    change (fence_close ++ m ++ fence_close) with (96%N :: 96%N :: 96%N :: m ++ fence_close).
    generalize (m ++ fence_close). intros l Hl. simpl in *. exact Hl. }
  rewrite (app_assoc fence_close m fence_close), endswith_app.
  rewrite (slice_to_minus_app (fence_close ++ m) fence_close : slice_to_minus 3 _ = _).
  unfold strip. change (lstrip (fence_close ++ m)) with (fence_close ++ m).
  change (fence_close ++ m) with (str "``" ++ 96%N :: m).
  by rewrite rstrip_app_nonspace.
Qed.

Lemma clean_text_untagged_fence_witness :
  clean_text (fence_close ++ ([10%N] ++ str "{}" ++ [10%N]) ++ fence_close ++ [10%N])
  = fence_close ++ rstrip ([10%N] ++ str "{}" ++ [10%N]).
Proof.
  apply (clean_text_untagged_fence [] ([10%N] ++ str "{}" ++ [10%N]) [10%N]);
    [constructor|by repeat constructor|done].
Defined.
